(** * AIExtractor front end: the submission form of [src/frontend/src/App.js]

    The React component [App] keeps eleven [useState] cells and five event
    handlers.  The handlers are embedded as functions on a record of those
    cells; the requests they issue and the downloads they trigger are returned
    next to the new state.  The JavaScript builtins the handlers call
    ([trim], [split], [toLowerCase], [endsWith], [replace], [isNaN],
    [parseInt]) are embedded in module [JS]. *)

From Stdlib Require Import Ascii String DecimalString ZArith Lia Bool Arith List.
Import ListNotations.

Set Implicit Arguments.

(* ================================================================== *)
(** * JavaScript builtins used by App.js *)
(* ================================================================== *)

Module JS.

(** A JavaScript string is the sequence of its code units.  The embedding
    covers the code units U+0000..U+00FF, one [ascii] each. *)
Definition jsstring := list ascii.

Definition str (s : string) : jsstring := list_ascii_of_string s.

Definition unit_code (c : ascii) : Z := Z.of_nat (nat_of_ascii c).

Definition jsstring_eqb (a b : jsstring) : bool :=
  if list_eq_dec ascii_dec a b then true else false.

(** [ToBoolean] on a string: the empty string is the only falsy one. *)
Definition truthy (s : jsstring) : bool :=
  match s with [] => false | _ :: _ => true end.

(** [WhiteSpace] and [LineTerminator] of ECMA-262 within U+0000..U+00FF:
    TAB, LF, VT, FF, CR, SP and NBSP. *)
Definition isWhiteSpace (c : ascii) : bool :=
  let n := unit_code c in
  ((9 <=? n) && (n <=? 13) || (n =? 32) || (n =? 160))%Z.

Fixpoint dropWhile (p : ascii -> bool) (s : jsstring) : jsstring :=
  match s with
  | [] => []
  | c :: r => if p c then dropWhile p r else s
  end.

Fixpoint takeWhile (p : ascii -> bool) (s : jsstring) : jsstring :=
  match s with
  | [] => []
  | c :: r => if p c then c :: takeWhile p r else []
  end.

(** [String.prototype.trim]: white space removed at both ends. *)
Definition trimStart (s : jsstring) : jsstring := dropWhile isWhiteSpace s.
Definition trimEnd (s : jsstring) : jsstring :=
  rev (dropWhile isWhiteSpace (rev s)).
Definition trim (s : jsstring) : jsstring := trimEnd (trimStart s).

(** [String.prototype.split] with a one-unit separator: the pieces between
    separators, empty pieces kept; the empty string gives one empty piece. *)
Fixpoint split (sep : ascii) (s : jsstring) : list jsstring :=
  match s with
  | [] => [[]]
  | c :: r =>
      if Ascii.eqb c sep then [] :: split sep r
      else match split sep r with
           | [] => [[c]]
           | w :: ws => (c :: w) :: ws
           end
  end.

(** [String.prototype.toLowerCase] on U+0000..U+00FF: A-Z and the Latin-1
    capitals U+00C0..U+00DE (U+00D7, the multiplication sign, apart) move up
    by 32; every other unit maps to itself. *)
Definition lowerUnit (c : ascii) : ascii :=
  let n := unit_code c in
  if ((65 <=? n) && (n <=? 90)
      || (192 <=? n) && (n <=? 222) && negb (n =? 215))%Z
  then ascii_of_nat (nat_of_ascii c + 32) else c.

Definition toLowerCase (s : jsstring) : jsstring := map lowerUnit s.

(** [String.prototype.endsWith(p)]: the last [length p] units are [p]. *)
Definition endsWith (s p : jsstring) : bool :=
  (length p <=? length s) && jsstring_eqb (skipn (length s - length p) s) p.

(** [s.startsWith(p)], used by [replace] to find the match position. *)
Fixpoint startsWith (s p : jsstring) : bool :=
  match p, s with
  | [], _ => true
  | _ :: _, [] => false
  | a :: p', b :: s' => Ascii.eqb a b && startsWith s' p'
  end.

(** [String.prototype.replace(pat, rep)] with a string pattern and a
    replacement without [$]: the leftmost occurrence of [pat] is replaced,
    nothing else; no occurrence leaves the string as it is. *)
Fixpoint replace (pat rep s : jsstring) : jsstring :=
  if startsWith s pat then rep ++ skipn (length pat) s
  else match s with
       | [] => []
       | c :: r => c :: replace pat rep r
       end.

(** ** Numbers read from strings *)

Definition isDigit (c : ascii) : bool :=
  let n := unit_code c in ((48 <=? n) && (n <=? 57))%Z.

(** Value of a unit as a digit in radix up to 36. *)
Definition digitValue (c : ascii) : option Z :=
  let n := unit_code c in
  if ((48 <=? n) && (n <=? 57))%Z then Some (n - 48)%Z
  else if ((97 <=? n) && (n <=? 122))%Z then Some (n - 87)%Z
  else if ((65 <=? n) && (n <=? 90))%Z then Some (n - 55)%Z
  else None.

Definition isRadixDigit (R : Z) (c : ascii) : bool :=
  match digitValue c with Some v => (v <? R)%Z | None => false end.

Definition digitsValue (R : Z) (ds : jsstring) : Z :=
  fold_left
    (fun acc c => (acc * R + match digitValue c with Some v => v | None => 0 end)%Z)
    ds 0%Z.

(** [parseInt(s)] without a radix (ECMA-262 19.2.5): leading white space is
    skipped, one sign is read, a [0x]/[0X] prefix selects radix 16, and the
    longest run of digits is the value; no digit gives [NaN], here [None].
    The value is kept as the exact integer: the rounding to a double that
    JavaScript applies above 2^53 keeps the sign, which is all the handlers
    test.  The statements below use the value through its sign and as
    what [parseInt] returned only, never as a numeral. *)
Definition parseInt (s : jsstring) : option Z :=
  let S0 := trimStart s in
  let sign := match S0 with
              | "-"%char :: _ => (-1)%Z
              | _ => 1%Z
              end in
  let S1 := match S0 with
            | "+"%char :: r => r
            | "-"%char :: r => r
            | _ => S0
            end in
  let '(R, S2) := match S1 with
                  | "0"%char :: "x"%char :: r => (16%Z, r)
                  | "0"%char :: "X"%char :: r => (16%Z, r)
                  | _ => (10%Z, S1)
                  end in
  match takeWhile (isRadixDigit R) S2 with
  | [] => None
  | ds => Some (sign * digitsValue R ds)%Z
  end.

(** The grammar [StringNumericLiteral] of ECMA-262 7.1.4.1, which decides
    whether [Number(s)] is [NaN]. *)
Definition nonEmptyAll (p : ascii -> bool) (s : jsstring) : bool :=
  truthy s && forallb p s.

Definition stripSign (s : jsstring) : jsstring :=
  match s with
  | "+"%char :: r => r
  | "-"%char :: r => r
  | _ => s
  end.

Definition isExponentPartOpt (s : jsstring) : bool :=
  match s with
  | [] => true
  | "e"%char :: r => nonEmptyAll isDigit (stripSign r)
  | "E"%char :: r => nonEmptyAll isDigit (stripSign r)
  | _ => false
  end.

Definition isStrUnsignedDecimalLiteral (s : jsstring) : bool :=
  if jsstring_eqb s (str "Infinity") then true
  else
    let d1 := takeWhile isDigit s in
    match dropWhile isDigit s with
    | "."%char :: r =>
        let d2 := takeWhile isDigit r in
        (truthy d1 || truthy d2) && isExponentPartOpt (dropWhile isDigit r)
    | r => truthy d1 && isExponentPartOpt r
    end.

Definition isNonDecimalIntegerLiteral (s : jsstring) : bool :=
  match s with
  | "0"%char :: "x"%char :: r => nonEmptyAll (isRadixDigit 16) r
  | "0"%char :: "X"%char :: r => nonEmptyAll (isRadixDigit 16) r
  | "0"%char :: "o"%char :: r => nonEmptyAll (isRadixDigit 8) r
  | "0"%char :: "O"%char :: r => nonEmptyAll (isRadixDigit 8) r
  | "0"%char :: "b"%char :: r => nonEmptyAll (isRadixDigit 2) r
  | "0"%char :: "B"%char :: r => nonEmptyAll (isRadixDigit 2) r
  | _ => false
  end.

Definition isStringNumericLiteral (s : jsstring) : bool :=
  let t := trim s in
  match t with
  | [] => true
  | _ => isNonDecimalIntegerLiteral t
         || isStrUnsignedDecimalLiteral (stripSign t)
  end.

(** [isNaN(s)] on a string: [Number(s)] is [NaN] exactly when [s] is not a
    [StringNumericLiteral]. *)
Definition isNaN (s : jsstring) : bool := negb (isStringNumericLiteral s).

End JS.

Import JS.

(* ================================================================== *)
(** * The component's data *)
(* ================================================================== *)

Module App.

(** Bytes of a file or of a response body. *)
Definition Blob := list Byte.byte.

(** A [File] of the file input: the handlers read its [name] and pass the
    object on as the request's document. *)
Record File := { name : jsstring; bytes : Blob }.

(** [stats] of [reader.onload]. *)
Record Stats := { totalRows : Z; totalColumns : Z; hasData : bool }.

(** The fields of the [FormData] posted to [/extract].  [req_columns] is
    the array handed to [JSON.stringify]; [req_sample_pages] is absent when
    the handler does not append it. *)
Record Request := {
  req_file : File;
  req_columns : list jsstring;
  req_extra_instructions : jsstring;
  req_sample_pages : option Z
}.

(** What the [catch] branch reads from a rejected request.  A property is
    [None] when its value is falsy, and [Some s] when it is truthy and a
    template literal renders it as [s]. *)
Record ErrorData := {
  error_prop : option jsstring;
  message_prop : option jsstring
}.

Inductive ResponseData :=
| DataBlob (text : option jsstring)
    (* [data instanceof Blob]; [text()] resolves to [Some t] or rejects *)
| DataOther (data_error : option jsstring).
    (* any other body, with its [data?.error] *)

Record ErrorResponse := {
  status : nat;
  statusText : jsstring;
  data : ResponseData
}.

(** How [axios.post] settles. *)
Inductive AxiosOutcome :=
| Resolved (body : Blob)
| RejectedResponse (r : ErrorResponse)     (* [error.response] is set *)
| RejectedNoResponse                       (* only [error.request] is set *)
| RejectedSetup (message : jsstring).      (* neither: [error.message] *)

(** The libraries the component calls.  [XLSX_read b] is the workbook read
    from the bytes [b], given as its sheets in [SheetNames] order, each sheet
    as [XLSX.utils.sheet_to_json(sheet, {header: 1})] lists its rows; [None]
    when reading or listing throws.  [JSON_parse t] is [None] when
    [JSON.parse] throws or the read of a property of its result does.
    [createObjectURL b] is the URL minted by one call; the browser mints
    another at every call, so a later call is a [Platform] with another
    [createObjectURL], and no statement compares the links of two calls. *)
Class Platform (Cell : Type) := {
  XLSX_read : Blob -> option (list (list (list Cell)));
  createObjectURL : Blob -> jsstring;
  JSON_parse : jsstring -> option ErrorData
}.

Section Component.

Context {Cell : Type} {P : Platform Cell}.

Definition Row := list Cell.

(** The [useState] cells of [App]. *)
Record AppState := {
  pdfFile : option File;
  columns : jsstring;
  notes : jsstring;
  isLoading : bool;
  downloadLink : jsstring;
  previewData : list Row;
  extractedBlob : option Blob;
  originalFilename : jsstring;
  extractionStats : option Stats;
  error : jsstring;
  samplePages : jsstring
}.

Definition initialState : AppState := {|
  pdfFile := None;
  columns := str "Species,Common Name,Location,Status";
  notes := [];
  isLoading := false;
  downloadLink := [];
  previewData := [];
  extractedBlob := None;
  originalFilename := [];
  extractionStats := None;
  error := [];
  samplePages := []
|}.

Definition setPdfFile (v : option File) (s : AppState) : AppState :=
  {| pdfFile := v; columns := columns s; notes := notes s;
     isLoading := isLoading s; downloadLink := downloadLink s;
     previewData := previewData s; extractedBlob := extractedBlob s;
     originalFilename := originalFilename s;
     extractionStats := extractionStats s; error := error s;
     samplePages := samplePages s |}.

Definition setColumns (v : jsstring) (s : AppState) : AppState :=
  {| pdfFile := pdfFile s; columns := v; notes := notes s;
     isLoading := isLoading s; downloadLink := downloadLink s;
     previewData := previewData s; extractedBlob := extractedBlob s;
     originalFilename := originalFilename s;
     extractionStats := extractionStats s; error := error s;
     samplePages := samplePages s |}.

Definition setNotes (v : jsstring) (s : AppState) : AppState :=
  {| pdfFile := pdfFile s; columns := columns s; notes := v;
     isLoading := isLoading s; downloadLink := downloadLink s;
     previewData := previewData s; extractedBlob := extractedBlob s;
     originalFilename := originalFilename s;
     extractionStats := extractionStats s; error := error s;
     samplePages := samplePages s |}.

Definition setIsLoading (v : bool) (s : AppState) : AppState :=
  {| pdfFile := pdfFile s; columns := columns s; notes := notes s;
     isLoading := v; downloadLink := downloadLink s;
     previewData := previewData s; extractedBlob := extractedBlob s;
     originalFilename := originalFilename s;
     extractionStats := extractionStats s; error := error s;
     samplePages := samplePages s |}.

Definition setDownloadLink (v : jsstring) (s : AppState) : AppState :=
  {| pdfFile := pdfFile s; columns := columns s; notes := notes s;
     isLoading := isLoading s; downloadLink := v;
     previewData := previewData s; extractedBlob := extractedBlob s;
     originalFilename := originalFilename s;
     extractionStats := extractionStats s; error := error s;
     samplePages := samplePages s |}.

Definition setPreviewData (v : list Row) (s : AppState) : AppState :=
  {| pdfFile := pdfFile s; columns := columns s; notes := notes s;
     isLoading := isLoading s; downloadLink := downloadLink s;
     previewData := v; extractedBlob := extractedBlob s;
     originalFilename := originalFilename s;
     extractionStats := extractionStats s; error := error s;
     samplePages := samplePages s |}.

Definition setExtractedBlob (v : option Blob) (s : AppState) : AppState :=
  {| pdfFile := pdfFile s; columns := columns s; notes := notes s;
     isLoading := isLoading s; downloadLink := downloadLink s;
     previewData := previewData s; extractedBlob := v;
     originalFilename := originalFilename s;
     extractionStats := extractionStats s; error := error s;
     samplePages := samplePages s |}.

Definition setOriginalFilename (v : jsstring) (s : AppState) : AppState :=
  {| pdfFile := pdfFile s; columns := columns s; notes := notes s;
     isLoading := isLoading s; downloadLink := downloadLink s;
     previewData := previewData s; extractedBlob := extractedBlob s;
     originalFilename := v;
     extractionStats := extractionStats s; error := error s;
     samplePages := samplePages s |}.

Definition setExtractionStats (v : option Stats) (s : AppState) : AppState :=
  {| pdfFile := pdfFile s; columns := columns s; notes := notes s;
     isLoading := isLoading s; downloadLink := downloadLink s;
     previewData := previewData s; extractedBlob := extractedBlob s;
     originalFilename := originalFilename s;
     extractionStats := v; error := error s;
     samplePages := samplePages s |}.

Definition setError (v : jsstring) (s : AppState) : AppState :=
  {| pdfFile := pdfFile s; columns := columns s; notes := notes s;
     isLoading := isLoading s; downloadLink := downloadLink s;
     previewData := previewData s; extractedBlob := extractedBlob s;
     originalFilename := originalFilename s;
     extractionStats := extractionStats s; error := v;
     samplePages := samplePages s |}.

Definition setSamplePages (v : jsstring) (s : AppState) : AppState :=
  {| pdfFile := pdfFile s; columns := columns s; notes := notes s;
     isLoading := isLoading s; downloadLink := downloadLink s;
     previewData := previewData s; extractedBlob := extractedBlob s;
     originalFilename := originalFilename s;
     extractionStats := extractionStats s; error := error s;
     samplePages := v |}.

(* ================================================================== *)
(** * The handlers *)
(* ================================================================== *)

(** [handleFileChange]: [file] is [e.target.files[0]], [None] when the
    selection was cleared. *)
Definition handleFileChange (file : option File) (s : AppState) : AppState :=
  let s := setPdfFile file s in
  let s := setOriginalFilename
             (match file with Some f => name f | None => [] end) s in
  let s := setError [] s in
  let s := setDownloadLink [] s in
  let s := setPreviewData [] s in
  let s := setExtractedBlob None s in
  setExtractionStats None s.

(** [columns.split(',').map(c => c.trim()).filter(c => c)], the expression
    both [validateInputs] and [handleSubmit] name [columnList]. *)
Definition columnList (columns : jsstring) : list jsstring :=
  filter truthy (map trim (split ","%char columns)).

(** [parseInt(x) <= 0] and [parseInt(x) > 0]: both are false on [NaN]. *)
Definition parseInt_le0 (x : jsstring) : bool :=
  match parseInt x with Some z => (z <=? 0)%Z | None => false end.

Definition parseInt_gt0 (x : jsstring) : bool :=
  match parseInt x with Some z => (0 <? z)%Z | None => false end.

(** [validateInputs]: the returned boolean and the state after the
    [setError] of the failing test; the handlers read the cells of the
    render they were created in, so the tests read [s]. *)
Definition validateInputs (s : AppState) : bool * AppState :=
  match pdfFile s with
  | None => (false, setError (str "Please select a PDF file") s)
  | Some f =>
      if negb (endsWith (toLowerCase (name f)) (str ".pdf")) then
        (false, setError (str "Please select a valid PDF file") s)
      else if negb (truthy (trim (columns s))) then
        (false, setError (str "Please specify at least one column") s)
      else if (length (columnList (columns s)) =? 0)%nat then
        (false, setError (str "Please specify valid column names") s)
      else if truthy (samplePages s)
              && (isNaN (samplePages s) || parseInt_le0 (samplePages s)) then
        (false, setError (str "Sample pages must be a positive number") s)
      else (true, s)
  end.

(** The [FormData] of [handleSubmit] for the selected file [f]. *)
Definition formData (s : AppState) (f : File) : Request :=
  {| req_file := f;
     req_columns := columnList (columns s);
     req_extra_instructions := notes s;
     req_sample_pages :=
       if truthy (samplePages s) && negb (isNaN (samplePages s))
          && parseInt_gt0 (samplePages s)
       then parseInt (samplePages s) else None |}.

(** [stats] of [reader.onload], from the rows [json] of the first sheet. *)
Definition computeStats (json : list Row) : Stats :=
  let len := Z.of_nat (length json) in
  {| totalRows := if (0 <? len)%Z then (len - 1)%Z else 0%Z;
     totalColumns :=
       if (0 <? len)%Z then Z.of_nat (length (nth 0 json [])) else 0%Z;
     hasData := (1 <? len)%Z |}.

(** [workbook.Sheets[workbook.SheetNames[0]]] listed by [sheet_to_json],
    which lists no row for a missing sheet. *)
Definition firstSheet (workbook : list (list Row)) : list Row :=
  match workbook with
  | [] => []
  | sheet :: _ => sheet
  end.

(** [reader.onload] on the bytes [b] of the response. *)
Definition onload (b : Blob) (s : AppState) : AppState :=
  match XLSX_read b with
  | Some workbook =>
      let json := firstSheet workbook in
      let s := setPreviewData json s in
      setExtractionStats (Some (computeStats json)) s
  | None => setError (str "Could not parse extracted data for preview") s
  end.

(** [a || b || c] on rendered values. *)
Definition orElse (a : option jsstring) (b : jsstring) : jsstring :=
  match a with Some x => x | None => b end.

Definition orElseOpt (a b : option jsstring) : option jsstring :=
  match a with Some x => Some x | None => b end.

Definition renderNat (n : nat) : jsstring :=
  str (NilZero.string_of_uint (Nat.to_uint n)).

Definition BACKEND_URL : jsstring :=
  str "https://aiextractorautomationpipeline.onrender.com".

Definition statusLine (r : ErrorResponse) : jsstring :=
  str "Extraction failed: " ++ renderNat (status r) ++ str " " ++ statusText r.

(** The message the [catch] branch of [handleSubmit] hands to [setError]. *)
Definition catchMessage (o : AxiosOutcome) : jsstring :=
  match o with
  | Resolved _ => []
  | RejectedResponse r =>
      match data r with
      | DataBlob (Some text) =>
          match JSON_parse text with
          | Some errorData =>
              str "Extraction failed: "
              ++ orElse (orElseOpt (error_prop errorData) (message_prop errorData))
                        (str "Unknown error")
          | None => statusLine r
          end
      | DataBlob None => statusLine r
      | DataOther data_error =>
          str "Extraction failed: "
          ++ orElse (orElseOpt data_error
                       (if truthy (statusText r) then Some (statusText r) else None))
                    (str "Server error")
      end
  | RejectedNoResponse =>
      str "No response from server. Please check if the backend is running at "
      ++ BACKEND_URL
  | RejectedSetup message => str "Request failed: " ++ message
  end.

(** [handleSubmit].  [server] is the back end behind [axios.post]: how the
    request settles.  The result is the state once the handler and the
    [FileReader] callback it registered have run, and the request that was
    posted, if one was. *)
Definition handleSubmit (server : Request -> AxiosOutcome) (s : AppState)
  : AppState * option Request :=
  let (valid, s0) := validateInputs s in
  if negb valid then (s0, None)
  else
    match pdfFile s with
    | None => (s0, None)
    | Some f =>
        let s1 := setIsLoading true s0 in
        let s1 := setDownloadLink [] s1 in
        let s1 := setPreviewData [] s1 in
        let s1 := setExtractedBlob None s1 in
        let s1 := setExtractionStats None s1 in
        let s1 := setError [] s1 in
        let request := formData s f in
        match server request with
        | Resolved body =>
            let s2 := setExtractedBlob (Some body) s1 in
            let s2 := setDownloadLink (createObjectURL body) s2 in
            let s3 := setIsLoading false s2 in
            (onload body s3, Some request)
        | rejected =>
            let s2 := setError (catchMessage rejected) s1 in
            (setIsLoading false s2, Some request)
        end
    end.

(** What [handleDownload] makes the browser save. *)
Record Download := { download : jsstring; href : Blob }.

Definition handleDownload (s : AppState) : option Download :=
  match extractedBlob s with
  | Some blob =>
      if truthy (originalFilename s) then
        Some {| download :=
                  str "extracted_"
                  ++ replace (str ".pdf") (str ".xlsx") (originalFilename s);
                href := blob |}
      else None
  | None => None
  end.

Definition handleDiscard (s : AppState) : AppState :=
  let s := setDownloadLink [] s in
  let s := setPreviewData [] s in
  let s := setExtractedBlob None s in
  setExtractionStats None s.

(* ================================================================== *)
(** * What is rendered *)
(* ================================================================== *)

Definition maxPreviewRows : nat := 20.

(** The table of [renderPreviewTable]: the header cells come from
    [previewRows[0]], the body from [previewRows.slice(1)]; [moreRows] is
    the count of the closing note, shown when rows were cut. *)
Record PreviewTable := {
  headerCells : Row;
  bodyRows : list Row;
  moreRows : option nat
}.

Definition renderPreviewTable (s : AppState) : option PreviewTable :=
  if (length (previewData s) =? 0)%nat then None
  else
    let previewRows := firstn maxPreviewRows (previewData s) in
    Some {| headerCells := nth 0 previewRows [];
            bodyRows := skipn 1 previewRows;
            moreRows :=
              if (maxPreviewRows <? length (previewData s))%nat
              then Some (length (previewData s) - maxPreviewRows)%nat
              else None |}.

(** The conditional parts of the returned JSX: the error banner
    ([error && ...]), the progress note ([isLoading && ...]), the
    completion panel with the download and discard buttons
    ([extractionStats && !isLoading && ...]) and the preview table. *)
Record View := {
  errorBanner : option jsstring;
  progressNote : bool;
  completePanel : option Stats;
  previewTable : option PreviewTable
}.

Definition render (s : AppState) : View :=
  {| errorBanner := if truthy (error s) then Some (error s) else None;
     progressNote := isLoading s;
     completePanel := if negb (isLoading s) then extractionStats s else None;
     previewTable := renderPreviewTable s |}.

(** The panel's download button exists only inside the completion panel. *)
Definition clickDownload (s : AppState) : option Download :=
  match completePanel (render s) with
  | Some _ => handleDownload s
  | None => None
  end.

End Component.

Arguments AppState Cell : clear implicits.
Arguments Row Cell : clear implicits.

End App.

Import App.

(* ================================================================== *)
(** * Vocabulary of the statements *)
(* ================================================================== *)

(** A list [l] whose elements appear in [m] in the same order. *)
Inductive Subseq {A : Type} : list A -> list A -> Prop :=
| Subseq_nil : Subseq [] []
| Subseq_skip x l m : Subseq l m -> Subseq l (x :: m)
| Subseq_keep x l m : Subseq l m -> Subseq (x :: l) (x :: m).

(** [pat] occurs in [s] at index [i]. *)
Definition occursAt (pat s : jsstring) (i : nat) : Prop :=
  firstn (length pat) (skipn i s) = pat.

(** The two messages of the column tests of [validateInputs]. *)
Definition schemaMessage (e : jsstring) : Prop :=
  e = str "Please specify at least one column"
  \/ e = str "Please specify valid column names".

(** The two messages of the file tests of [validateInputs]. *)
Definition fileMessage (e : jsstring) : Prop :=
  e = str "Please select a PDF file"
  \/ e = str "Please select a valid PDF file".

(** The file tests of [validateInputs] pass. *)
Definition fileAccepted {Cell : Type} (s : AppState Cell) : Prop :=
  exists f, pdfFile s = Some f
            /\ endsWith (toLowerCase (name f)) (str ".pdf") = true.

(** The state [handleSubmit] reaches before it posts the request. *)
Definition cleared {Cell : Type} (s : AppState Cell) : AppState Cell :=
  setError []
    (setExtractionStats None
       (setExtractedBlob None
          (setPreviewData [] (setDownloadLink [] (setIsLoading true s))))).

(** The state [handleSubmit] reaches from [s1] once the request has
    settled as [o] and the reader's callback has run. *)
Definition settled {Cell : Type} {P : Platform Cell}
  (o : AxiosOutcome) (s1 : AppState Cell) : AppState Cell :=
  match o with
  | Resolved body =>
      onload body
        (setIsLoading false
           (setDownloadLink (createObjectURL body)
              (setExtractedBlob (Some body) s1)))
  | rejected => setIsLoading false (setError (catchMessage rejected) s1)
  end.

(** The six ways through [validateInputs], each with the tests that lead
    to it. *)
Inductive Validation {Cell : Type} (s : AppState Cell)
  : bool -> AppState Cell -> Prop :=
| V_no_file :
    pdfFile s = None ->
    Validation s false (setError (str "Please select a PDF file") s)
| V_not_pdf f :
    pdfFile s = Some f ->
    endsWith (toLowerCase (name f)) (str ".pdf") = false ->
    Validation s false (setError (str "Please select a valid PDF file") s)
| V_no_columns f :
    pdfFile s = Some f ->
    endsWith (toLowerCase (name f)) (str ".pdf") = true ->
    trim (columns s) = [] ->
    Validation s false (setError (str "Please specify at least one column") s)
| V_bad_columns f :
    pdfFile s = Some f ->
    endsWith (toLowerCase (name f)) (str ".pdf") = true ->
    trim (columns s) <> [] ->
    columnList (columns s) = [] ->
    Validation s false (setError (str "Please specify valid column names") s)
| V_bad_sample f :
    pdfFile s = Some f ->
    endsWith (toLowerCase (name f)) (str ".pdf") = true ->
    columnList (columns s) <> [] ->
    samplePages s <> [] ->
    isNaN (samplePages s) || parseInt_le0 (samplePages s) = true ->
    Validation s false
      (setError (str "Sample pages must be a positive number") s)
| V_ok f :
    pdfFile s = Some f ->
    endsWith (toLowerCase (name f)) (str ".pdf") = true ->
    columnList (columns s) <> [] ->
    truthy (samplePages s)
    && (isNaN (samplePages s) || parseInt_le0 (samplePages s)) = false ->
    Validation s true s.

(* ================================================================== *)
(** * Sessions: sequences of user events *)
(* ================================================================== *)

(** The events of the form.  A submission is one step: the request has
    settled and the reader's callback has run before the next event.
    What happens when an event falls in between is the matter of [Action]
    and [act] below. *)
Inductive Event :=
| FileChange (file : option File)
| ColumnsInput (v : jsstring)
| SamplePagesInput (v : jsstring)
| NotesInput (v : jsstring)
| FormSubmit (server : Request -> AxiosOutcome)
| DownloadClick
| DiscardClick.

(** The component's state with a log of what left the page: the requests
    posted, each with how it settled, and the files saved, latest first. *)
Record Session (Cell : Type) := {
  ui : AppState Cell;
  exchanges : list (Request * AxiosOutcome);
  saved : list Download
}.

Definition session0 {Cell : Type} : Session Cell :=
  {| ui := initialState; exchanges := []; saved := [] |}.

Definition step {Cell : Type} {P : Platform Cell}
  (x : Session Cell) (e : Event) : Session Cell :=
  match e with
  | FileChange file =>
      {| ui := handleFileChange file (ui x);
         exchanges := exchanges x; saved := saved x |}
  | ColumnsInput v =>
      {| ui := setColumns v (ui x); exchanges := exchanges x; saved := saved x |}
  | SamplePagesInput v =>
      {| ui := setSamplePages v (ui x);
         exchanges := exchanges x; saved := saved x |}
  | NotesInput v =>
      {| ui := setNotes v (ui x); exchanges := exchanges x; saved := saved x |}
  | FormSubmit server =>
      let (s', posted) := handleSubmit server (ui x) in
      {| ui := s';
         exchanges :=
           match posted with
           | Some req => (req, server req) :: exchanges x
           | None => exchanges x
           end;
         saved := saved x |}
  | DownloadClick =>
      {| ui := ui x; exchanges := exchanges x;
         saved :=
           match clickDownload (ui x) with
           | Some d => d :: saved x
           | None => saved x
           end |}
  | DiscardClick =>
      {| ui := match completePanel (render (ui x)) with
               | Some _ => handleDiscard (ui x)
               | None => ui x
               end;
         exchanges := exchanges x; saved := saved x |}
  end.

Definition run {Cell : Type} {P : Platform Cell}
  (events : list Event) (x : Session Cell) : Session Cell :=
  fold_left step events x.

(** Some result cell is set. *)
Definition holdsResult {Cell : Type} (s : AppState Cell) : Prop :=
  extractionStats s <> None \/ previewData s <> [] \/ extractedBlob s <> None.

(** What holds between events: no request is pending, [originalFilename]
    is the name of the selected file, and a result that is held came with
    the latest request, which was posted for the selected file. *)
Definition Consistent {Cell : Type} (x : Session Cell) : Prop :=
  isLoading (ui x) = false
  /\ originalFilename (ui x)
     = match pdfFile (ui x) with Some f => name f | None => [] end
  /\ (holdsResult (ui x) ->
      exists req body rest,
        exchanges x = (req, Resolved body) :: rest
        /\ pdfFile (ui x) = Some (req_file req)
        /\ extractedBlob (ui x) = Some body).

(** The cells the user fills in: the selected file, the column input, the
    instructions and the sample-page limit. *)
Definition sameInputs {Cell : Type} (s1 s2 : AppState Cell) : Prop :=
  pdfFile s1 = pdfFile s2
  /\ columns s1 = columns s2
  /\ notes s1 = notes s2
  /\ samplePages s1 = samplePages s2.

(** The cells a submission writes. *)
Definition sameResults {Cell : Type} (s1 s2 : AppState Cell) : Prop :=
  isLoading s1 = isLoading s2
  /\ downloadLink s1 = downloadLink s2
  /\ previewData s1 = previewData s2
  /\ extractedBlob s1 = extractedBlob s2
  /\ extractionStats s1 = extractionStats s2
  /\ error s1 = error s2.

(** The count of the closing note of the preview table, 0 without note. *)
Definition moreCount {Cell : Type} (t : @PreviewTable Cell) : nat :=
  match moreRows t with Some n => n | None => 0 end.

(** Every saved file has the bytes of a logged response that resolved, and
    is named after the file that response was requested for. *)
Definition Provenance {Cell : Type} (x : Session Cell) : Prop :=
  forall d, In d (saved x) ->
    exists req body,
      In (req, Resolved body) (exchanges x)
      /\ href d = body
      /\ download d
         = str "extracted_"
           ++ replace (str ".pdf") (str ".xlsx") (name (req_file req)).

(** The result cells agree with each other: statistics and preview rows
    are those of the first sheet read from the stored bytes, the download
    link is the object URL of those bytes, and without stored bytes there
    is no link, no statistics and no preview row. *)
Definition Coherent {Cell : Type} {P : Platform Cell} (s : AppState Cell)
  : Prop :=
  (forall st, extractionStats s = Some st ->
     exists body workbook,
       extractedBlob s = Some body
       /\ XLSX_read body = Some workbook
       /\ previewData s = firstSheet workbook
       /\ st = computeStats (firstSheet workbook))
  /\ (extractionStats s = None -> previewData s = [])
  /\ (forall body, extractedBlob s = Some body ->
        downloadLink s = createObjectURL body)
  /\ (extractedBlob s = None ->
      downloadLink s = [] /\ extractionStats s = None).

(** Every cell but the download link is the same. *)
Definition sameButLink {Cell : Type} (s1 s2 : AppState Cell) : Prop :=
  pdfFile s1 = pdfFile s2
  /\ columns s1 = columns s2
  /\ notes s1 = notes s2
  /\ isLoading s1 = isLoading s2
  /\ previewData s1 = previewData s2
  /\ extractedBlob s1 = extractedBlob s2
  /\ originalFilename s1 = originalFilename s2
  /\ extractionStats s1 = extractionStats s2
  /\ error s1 = error s2
  /\ samplePages s1 = samplePages s2.

(* ================================================================== *)
(** * The page between callbacks *)
(* ================================================================== *)

(** [handleSubmit] gives up control twice: at [await axios.post] and until
    the [FileReader] calls [onload]; the file input and the text inputs
    stay enabled meanwhile, and only the submit button is disabled while
    [isLoading].  An [Action] is one uninterrupted run of code: an input
    event, the handler up to the [await], the continuation when the post
    settles, or one [onload] callback. *)
Inductive Action :=
| Choose (file : option File)
| TypeColumns (v : jsstring)
| TypeSamplePages (v : jsstring)
| TypeNotes (v : jsstring)
| Submit (server : Request -> AxiosOutcome)
| Respond
| ReaderLoads (i : nat)
| ClickDownload
| ClickDiscard.

(** The cells, the post that has not settled yet with how it will settle,
    the readers that have not called back yet, each with the request its
    bytes answer, and logs of the requests posted, of the posts that have
    settled and of the files saved, latest first. *)
Record Page (Cell : Type) := {
  cells : AppState Cell;
  posting : option (Request * AxiosOutcome);
  reading : list (Request * Blob);
  requests : list Request;
  answers : list (Request * AxiosOutcome);
  files : list Download
}.


(** The continuation of [handleSubmit] after the [await], on the cells as
    they are when the post settles: every write is a setter with a value
    that does not read the cells. *)
Definition received {Cell : Type} {P : Platform Cell}
  (o : AxiosOutcome) (s : AppState Cell) : AppState Cell :=
  match o with
  | Resolved body =>
      setIsLoading false
        (setDownloadLink (createObjectURL body)
           (setExtractedBlob (Some body) s))
  | rejected => setIsLoading false (setError (catchMessage rejected) s)
  end.

Definition withCells {Cell : Type} (p : Page Cell) (s : AppState Cell)
  : Page Cell :=
  {| cells := s; posting := posting p; reading := reading p;
     requests := requests p; answers := answers p; files := files p |}.

Definition act {Cell : Type} {P : Platform Cell}
  (p : Page Cell) (a : Action) : Page Cell :=
  match a with
  | Choose file => withCells p (handleFileChange file (cells p))
  | TypeColumns v => withCells p (setColumns v (cells p))
  | TypeSamplePages v => withCells p (setSamplePages v (cells p))
  | TypeNotes v => withCells p (setNotes v (cells p))
  | Submit server =>
      if isLoading (cells p) then p
      else
        let (valid, s0) := validateInputs (cells p) in
        if negb valid then withCells p s0
        else
          match pdfFile (cells p) with
          | None => withCells p s0
          | Some f =>
              let request := formData (cells p) f in
              {| cells := cleared s0;
                 posting := Some (request, server request);
                 reading := reading p;
                 requests := request :: requests p;
                 answers := answers p;
                 files := files p |}
          end
  | Respond =>
      match posting p with
      | None => p
      | Some (request, o) =>
          {| cells := received o (cells p);
             posting := None;
             reading :=
               match o with
               | Resolved body => reading p ++ [(request, body)]
               | _ => reading p
               end;
             requests := requests p;
             answers := (request, o) :: answers p;
             files := files p |}
      end
  | ReaderLoads i =>
      match nth_error (reading p) i with
      | None => p
      | Some (request, body) =>
          {| cells := onload body (cells p);
             posting := posting p;
             reading := firstn i (reading p) ++ skipn (S i) (reading p);
             requests := requests p;
             answers := answers p;
             files := files p |}
      end
  | ClickDownload =>
      {| cells := cells p; posting := posting p; reading := reading p;
         requests := requests p; answers := answers p;
         files :=
           match clickDownload (cells p) with
           | Some d => d :: files p
           | None => files p
           end |}
  | ClickDiscard =>
      withCells p
        (match completePanel (render (cells p)) with
         | Some _ => handleDiscard (cells p)
         | None => cells p
         end)
  end.

Definition perform {Cell : Type} {P : Platform Cell}
  (actions : list Action) (p : Page Cell) : Page Cell :=
  fold_left act actions p.


(* ================================================================== *)
(** * Concrete inputs *)
(* ================================================================== *)

(** A stand-in for the libraries, to run the handlers on concrete inputs:
    a non-empty body decodes to one sheet with one row per byte, the byte's
    value being the number of cells of the row; the empty body does not
    decode. *)
Definition demoPlatform : Platform jsstring := {|
  XLSX_read := fun b =>
    match b with
    | [] => None
    | _ => Some [map (fun x => repeat (str "cell") (Byte.to_nat x)) b]
    end;
  createObjectURL := fun _ => str "blob:demo";
  JSON_parse := fun _ => None
|}.

Definition surveyPdf : File :=
  {| name := str "survey.pdf"; bytes := [Byte.x25; Byte.x50; Byte.x44; Byte.x46] |}.

Definition upperPdf : File :=
  {| name := str "SURVEY.PDF"; bytes := [Byte.x25; Byte.x50; Byte.x44; Byte.x46] |}.

Definition notesTxt : File :=
  {| name := str "notes.txt"; bytes := [] |}.

(** A back end that answers every request with the same body. *)
Definition answering (body : Blob) : Request -> AxiosOutcome :=
  fun _ => Resolved body.


(** A header of three cells and two data rows. *)
Definition threeByTwo : Blob := [Byte.x03; Byte.x03; Byte.x03].

(** The form with [surveyPdf] chosen and the default columns. *)
Definition readyState : AppState jsstring :=
  handleFileChange (Some surveyPdf) initialState.

(** [readyState] with a column name entered twice. *)
Definition repeatedColumns : AppState jsstring :=
  setColumns (str "Species, Location,Species") readyState.

(** [readyState] with a column input of separators and blanks. *)
Definition blankColumns : AppState jsstring :=
  setColumns (str " , ") readyState.

(** The state after [readyState] was submitted and [threeByTwo] came back. *)
Definition resultState : AppState jsstring :=
  fst (handleSubmit (P := demoPlatform) (answering threeByTwo) readyState).


(** The libraries at a later call: [URL.createObjectURL] mints another
    URL for the same bytes. *)
Definition demoPlatformLater : Platform jsstring := {|
  XLSX_read := XLSX_read (Platform := demoPlatform);
  createObjectURL := fun _ => str "blob:demo-later";
  JSON_parse := JSON_parse (Platform := demoPlatform)
|}.




(** An extraction for [surveyPdf], then [upperPdf] is chosen and
    extracted. *)
Definition secondExtraction : list Event :=
  [FileChange (Some surveyPdf); FormSubmit (answering threeByTwo);
   FileChange (Some upperPdf); FormSubmit (answering threeByTwo)].

(* ================================================================== *)
(** * Facts about the builtins *)
(* ================================================================== *)

Example trim_ex : trim (str "  Common Name ") = str "Common Name".
Proof. reflexivity. Qed.

Example split_ex :
  split ","%char (str "a,,b,") = [str "a"; str ""; str "b"; str ""].
Proof. reflexivity. Qed.

Example split_empty_ex : split ","%char (str "") = [str ""].
Proof. reflexivity. Qed.

Example endsWith_ex :
  endsWith (toLowerCase (str "Report.PDF")) (str ".pdf") = true
  /\ endsWith (str "pdf") (str ".pdf") = false.
Proof. split; reflexivity. Qed.

Example replace_ex :
  replace (str ".pdf") (str ".xlsx") (str "a.pdf.pdf") = str "a.xlsx.pdf"
  /\ replace (str ".pdf") (str ".xlsx") (str "A.PDF") = str "A.PDF".
Proof. split; reflexivity. Qed.

Example parseInt_ex :
  parseInt (str "3") = Some 3%Z
  /\ parseInt (str "  -12px") = Some (-12)%Z
  /\ parseInt (str "1e3") = Some 1%Z
  /\ parseInt (str "0x1F") = Some 31%Z
  /\ parseInt (str "0.5") = Some 0%Z
  /\ parseInt (str ".5") = None
  /\ parseInt (str "abc") = None.
Proof. repeat split; reflexivity. Qed.

Example isNaN_ex :
  isNaN (str "3") = false
  /\ isNaN (str "1e3") = false
  /\ isNaN (str "-.5e-2") = false
  /\ isNaN (str "0x1F") = false
  /\ isNaN (str " 7 ") = false
  /\ isNaN (str "Infinity") = false
  /\ isNaN (str "5abc") = true
  /\ isNaN (str "abc") = true
  /\ isNaN (str "1e") = true
  /\ isNaN (str "-0x10") = true
  /\ isNaN (str ".") = true.
Proof. repeat split; reflexivity. Qed.

Section StringFacts.

Lemma dropWhile_nil_iff p s : dropWhile p s = [] <-> forallb p s = true.
Proof.
  induction s as [|c r IH]; simpl.
  - tauto.
  - destruct (p c); simpl; [exact IH | split; discriminate].
Qed.

Lemma dropWhile_head p s c r : dropWhile p s = c :: r -> p c = false.
Proof.
  induction s as [|a s IH]; simpl; [discriminate|].
  destruct (p a) eqn:E; [exact IH|].
  intros H; injection H as <- _; exact E.
Qed.

Lemma dropWhile_stable p c r : p c = false -> dropWhile p (c :: r) = c :: r.
Proof. intros H; simpl; now rewrite H. Qed.

Lemma dropWhile_idem p s : dropWhile p (dropWhile p s) = dropWhile p s.
Proof.
  destruct (dropWhile p s) as [|c r] eqn:E; [reflexivity|].
  apply dropWhile_stable. eapply dropWhile_head; eauto.
Qed.

Lemma dropWhile_split p s :
  exists pre, s = pre ++ dropWhile p s /\ forallb p pre = true.
Proof.
  induction s as [|c r [pre [E A]]]; simpl.
  - exists []; split; reflexivity.
  - destruct (p c) eqn:Pc.
    + exists (c :: pre); simpl; rewrite Pc, A; split; [now f_equal | reflexivity].
    + exists []; split; reflexivity.
Qed.

Lemma forallb_rev_true (p : ascii -> bool) s :
  forallb p (rev s) = true <-> forallb p s = true.
Proof.
  rewrite !forallb_forall; split; intros H x Hx; apply H;
    [now apply in_rev in Hx | now apply in_rev].
Qed.

Lemma trimEnd_split s :
  exists suf, s = trimEnd s ++ suf /\ forallb isWhiteSpace suf = true.
Proof.
  unfold trimEnd.
  destruct (dropWhile_split isWhiteSpace (rev s)) as [pre [E A]].
  exists (rev pre); split.
  - rewrite <- rev_app_distr, <- E. symmetry; apply rev_involutive.
  - now apply forallb_rev_true.
Qed.

Lemma trimEnd_idem s : trimEnd (trimEnd s) = trimEnd s.
Proof. unfold trimEnd. now rewrite rev_involutive, dropWhile_idem. Qed.

(** [trim] gives the empty string exactly on strings of white space. *)
Lemma trim_nil_iff s : trim s = [] <-> forallb isWhiteSpace s = true.
Proof.
  unfold trim, trimStart. split.
  - intros H.
    destruct (trimEnd_split (dropWhile isWhiteSpace s)) as [suf [E A]].
    rewrite H in E; simpl in E.
    destruct (dropWhile isWhiteSpace s) as [|c r] eqn:D.
    + now apply dropWhile_nil_iff.
    + apply dropWhile_head in D. subst suf. simpl in A.
      rewrite D in A. discriminate.
  - intros H. apply dropWhile_nil_iff in H. now rewrite H.
Qed.

(** Trimming twice is trimming once: a trimmed string starts and ends with
    a unit that is not white space. *)
Lemma trim_idem s : trim (trim s) = trim s.
Proof.
  unfold trim at 1. unfold trim, trimStart.
  set (d := dropWhile isWhiteSpace s).
  assert (Hd : dropWhile isWhiteSpace (trimEnd d) = trimEnd d).
  { destruct (trimEnd_split d) as [suf [E _]].
    destruct (trimEnd d) as [|c r] eqn:T; [reflexivity|].
    apply dropWhile_stable.
    destruct d as [|c' r'] eqn:D; [discriminate|].
    injection E as -> _. subst d. eapply dropWhile_head; eauto. }
  rewrite Hd. apply trimEnd_idem.
Qed.

Lemma split_no_separator sep s :
  forallb (fun c => negb (Ascii.eqb c sep)) s = true -> split sep s = [s].
Proof.
  induction s as [|c r IH]; simpl; [reflexivity|].
  destruct (Ascii.eqb c sep); simpl; [discriminate|].
  intros H; now rewrite (IH H).
Qed.

Lemma whiteSpace_not_comma c :
  isWhiteSpace c = true -> negb (Ascii.eqb c ","%char) = true.
Proof.
  destruct (Ascii.eqb c ","%char) eqn:E; [|reflexivity].
  apply Ascii.eqb_eq in E; subst c. discriminate.
Qed.

(** A column input of white space only has no entry left. *)
Lemma columnList_blank s : trim s = [] -> columnList s = [].
Proof.
  intros H. unfold columnList.
  rewrite split_no_separator.
  - simpl. now rewrite H.
  - apply trim_nil_iff in H. rewrite forallb_forall in *.
    intros c Hc. apply whiteSpace_not_comma. now apply H.
Qed.

Lemma truthy_true_iff s : truthy s = true <-> s <> [].
Proof. destruct s; simpl; split; (discriminate || congruence || auto). Qed.

Lemma filter_Subseq {A} (p : A -> bool) l : Subseq (filter p l) l.
Proof.
  induction l as [|x l IH]; simpl; [constructor|].
  destruct (p x); now constructor.
Qed.

Lemma count_occ_filter_truthy (l : list jsstring) c :
  c <> [] ->
  count_occ (list_eq_dec ascii_dec) (filter truthy l) c
  = count_occ (list_eq_dec ascii_dec) l c.
Proof.
  intros Hc. induction l as [|x l IH]; [reflexivity|].
  destruct x as [|a x]; cbn [filter truthy].
  - rewrite count_occ_cons_neq by congruence. exact IH.
  - destruct (list_eq_dec ascii_dec (a :: x) c) as [E|E].
    + rewrite !(count_occ_cons_eq _ _ E). now rewrite IH.
    + rewrite !(count_occ_cons_neq _ _ E). exact IH.
Qed.

End StringFacts.

(* ================================================================== *)
(** * Facts about the handlers *)
(* ================================================================== *)

Section HandlerFacts.

Context {Cell : Type} {P : Platform Cell}.

Implicit Types (s : AppState Cell) (server : Request -> AxiosOutcome).

Lemma length_zero_nil {A} (l : list A) : (length l =? 0) = true <-> l = [].
Proof. destruct l; simpl; split; (reflexivity || discriminate). Qed.

Lemma validateInputs_spec s :
  Validation s (fst (validateInputs s)) (snd (validateInputs s)).
Proof.
  unfold validateInputs.
  destruct (pdfFile s) as [f|] eqn:Hf; [|now apply V_no_file].
  destruct (endsWith (toLowerCase (name f)) (str ".pdf")) eqn:Hpdf;
    cbn [negb fst snd]; [|now apply V_not_pdf with f].
  destruct (truthy (trim (columns s))) eqn:Ht; cbn [negb fst snd].
  2:{ apply V_no_columns with f; auto.
      destruct (trim (columns s)); [reflexivity | discriminate]. }
  assert (Ht' : trim (columns s) <> []) by now apply truthy_true_iff.
  destruct (length (columnList (columns s)) =? 0) eqn:Hl; cbn [fst snd].
  { apply V_bad_columns with f; auto. now apply length_zero_nil. }
  assert (Hl' : columnList (columns s) <> []).
  { intros E. rewrite E in Hl. discriminate. }
  destruct (truthy (samplePages s)
            && (isNaN (samplePages s) || parseInt_le0 (samplePages s))) eqn:Hs;
    cbn [fst snd].
  - apply andb_true_iff in Hs as [Hs1 Hs2].
    apply V_bad_sample with f; auto. now apply truthy_true_iff.
  - now apply V_ok with f.
Qed.

Lemma validateInputs_inv s b s' :
  validateInputs s = (b, s') -> Validation s b s'.
Proof.
  intros H. pose proof (validateInputs_spec s) as V.
  now rewrite H in V.
Qed.

(** A failed validation leaves a non-empty message in [error] and touches
    no other cell. *)
Lemma Validation_false s s' :
  Validation s false s' ->
  exists e, s' = setError e s /\ truthy e = true
            /\ (fileMessage e \/ schemaMessage e
                \/ e = str "Sample pages must be a positive number").
Proof.
  intros V; inversion V; subst; eexists; (split; [reflexivity|]);
    (split; [reflexivity|]); unfold fileMessage, schemaMessage; tauto.
Qed.

Lemma Validation_true s s' :
  Validation s true s' ->
  s' = s
  /\ exists f, pdfFile s = Some f
       /\ endsWith (toLowerCase (name f)) (str ".pdf") = true
       /\ columnList (columns s) <> []
       /\ truthy (samplePages s)
          && (isNaN (samplePages s) || parseInt_le0 (samplePages s)) = false.
Proof.
  intros V. inversion V as [| | | | |f Hf Hpdf Hc Hs E].
  split; [reflexivity|]. exists f; auto.
Qed.

Lemma handleSubmit_rejected server s :
  fst (validateInputs s) = false ->
  handleSubmit server s = (snd (validateInputs s), None).
Proof.
  unfold handleSubmit. destruct (validateInputs s) as [b s0]; simpl.
  now intros ->.
Qed.

Lemma handleSubmit_accepted server s f :
  pdfFile s = Some f ->
  fst (validateInputs s) = true ->
  handleSubmit server s
  = (settled (server (formData s f)) (cleared s), Some (formData s f)).
Proof.
  intros Hf Hv. unfold handleSubmit.
  pose proof (validateInputs_spec s) as V.
  destruct (validateInputs s) as [b s0]; simpl in Hv, V; subst b.
  apply Validation_true in V as [-> _].
  cbn [negb]. rewrite Hf.
  unfold settled, cleared.
  destruct (server (formData s f)); reflexivity.
Qed.

(** [handleSubmit] either stops at validation, with the message set and no
    request, or posts the request built from the accepted file. *)
Lemma handleSubmit_cases server s :
  (fst (validateInputs s) = false
   /\ handleSubmit server s = (snd (validateInputs s), None))
  \/ (exists f, pdfFile s = Some f
        /\ fst (validateInputs s) = true
        /\ endsWith (toLowerCase (name f)) (str ".pdf") = true
        /\ handleSubmit server s
           = (settled (server (formData s f)) (cleared s),
              Some (formData s f))).
Proof.
  destruct (fst (validateInputs s)) eqn:Hv.
  - right. pose proof (validateInputs_spec s) as V. rewrite Hv in V.
    apply Validation_true in V as [_ [f [Hf [Hpdf _]]]].
    exists f; repeat split; auto. now apply handleSubmit_accepted.
  - left; split; [reflexivity|]. now apply handleSubmit_rejected.
Qed.

Lemma handleSubmit_posted server s s' req :
  handleSubmit server s = (s', Some req) ->
  exists f, pdfFile s = Some f
    /\ fst (validateInputs s) = true
    /\ endsWith (toLowerCase (name f)) (str ".pdf") = true
    /\ req = formData s f
    /\ s' = settled (server req) (cleared s).
Proof.
  intros H.
  destruct (handleSubmit_cases server s) as [[_ E]|[f [Hf [Hv [Hp E]]]]];
    rewrite E in H; [discriminate|].
  injection H as <- <-. exists f; auto.
Qed.

End HandlerFacts.

(* ================================================================== *)
(** * Statistics, preview and the file gate *)
(* ================================================================== *)

Section Results.

Context {Cell : Type} {P : Platform Cell}.

Implicit Types (s : AppState Cell) (server : Request -> AxiosOutcome).

(** The state after a response whose body the workbook reader accepts. *)
Lemma settled_parsed s body workbook :
  XLSX_read body = Some workbook ->
  settled (Resolved body) (cleared s)
  = setExtractionStats (Some (computeStats (firstSheet workbook)))
      (setPreviewData (firstSheet workbook)
         (setIsLoading false
            (setDownloadLink (createObjectURL body)
               (setExtractedBlob (Some body) (cleared s))))).
Proof. intros H. unfold settled, onload. now rewrite H. Qed.

Lemma settled_unparsed s body :
  XLSX_read body = None ->
  settled (Resolved body) (cleared s)
  = setError (str "Could not parse extracted data for preview")
      (setIsLoading false
         (setDownloadLink (createObjectURL body)
            (setExtractedBlob (Some body) (cleared s)))).
Proof. intros H. unfold settled, onload. now rewrite H. Qed.

Lemma computeStats_rows (json : list (Row Cell)) :
  (json <> [] -> totalRows (computeStats json) = (Z.of_nat (length json) - 1)%Z)
  /\ (json = [] -> totalRows (computeStats json) = 0%Z)
  /\ (hasData (computeStats json) = true <-> (0 < totalRows (computeStats json))%Z).
Proof.
  unfold computeStats; cbn [totalRows hasData].
  destruct json as [|r json]; cbn [length].
  - repeat split; try reflexivity; try congruence; simpl; intros; lia || discriminate.
  - assert (H : (0 <? Z.of_nat (S (length json)))%Z = true)
      by (apply Z.ltb_lt; lia).
    rewrite H. repeat split; try reflexivity; try congruence.
    + intros H1. apply Z.ltb_lt in H1. lia.
    + intros H1. apply Z.ltb_lt. lia.
Qed.

Lemma computeStats_columns (json : list (Row Cell)) :
  totalColumns (computeStats json)
  = match json with
    | [] => 0%Z
    | header :: _ => Z.of_nat (length header)
    end.
Proof.
  unfold computeStats; cbn [totalColumns].
  destruct json as [|r json]; [reflexivity|].
  assert (H : (0 <? Z.of_nat (length (r :: json)))%Z = true)
    by (apply Z.ltb_lt; simpl; lia).
  now rewrite H.
Qed.

(** C1.  When a submission is posted, the request resolves and the body
    parses, the statistics are set; [totalRows] is the number of rows of
    the first sheet minus one when the sheet has rows and 0 when it has
    none, and [hasData] holds exactly when [totalRows] is positive. *)
Theorem C1_total_rows_and_hasData server s s' req body workbook :
  handleSubmit server s = (s', Some req) ->
  server req = Resolved body ->
  XLSX_read body = Some workbook ->
  exists st,
    extractionStats s' = Some st
    /\ (firstSheet workbook <> [] ->
        totalRows st = (Z.of_nat (length (firstSheet workbook)) - 1)%Z)
    /\ (firstSheet workbook = [] -> totalRows st = 0%Z)
    /\ (hasData st = true <-> (0 < totalRows st)%Z).
Proof.
  intros H Hr Hx.
  apply handleSubmit_posted in H as [f [_ [_ [_ [_ ->]]]]].
  rewrite Hr, (settled_parsed s body Hx).
  exists (computeStats (firstSheet workbook)).
  split; [reflexivity|]. apply computeStats_rows.
Qed.

(** C2, as amended.  [totalColumns] is the number of cells of the first
    row of the artifact's first sheet, and 0 when that sheet has no row; it
    is the number of column names sent with the request whenever that first
    row has as many cells as names were sent. *)
Theorem C2_total_columns_from_header server s s' req body workbook :
  handleSubmit server s = (s', Some req) ->
  server req = Resolved body ->
  XLSX_read body = Some workbook ->
  exists st,
    extractionStats s' = Some st
    /\ totalColumns st
       = match firstSheet workbook with
         | [] => 0%Z
         | header :: _ => Z.of_nat (length header)
         end
    /\ (forall header rows,
          firstSheet workbook = header :: rows ->
          length header = length (req_columns req) ->
          totalColumns st = Z.of_nat (length (columnList (columns s)))).
Proof.
  intros H Hr Hx.
  apply handleSubmit_posted in H as [f [_ [_ [_ [-> ->]]]]].
  rewrite Hr, (settled_parsed s body Hx).
  exists (computeStats (firstSheet workbook)).
  split; [reflexivity|]. rewrite computeStats_columns. split; [reflexivity|].
  intros header rows -> Hl. cbn [formData req_columns] in Hl. now rewrite Hl.
Qed.

(** C6.  The preview rows are the rows of the first sheet read from the
    very bytes that are stored for download; the table shows the first 20
    of them: the header row and up to 19 data rows below it. *)
Theorem C6_preview_from_download_bytes server s s' req body workbook :
  handleSubmit server s = (s', Some req) ->
  server req = Resolved body ->
  XLSX_read body = Some workbook ->
  extractedBlob s' = Some body
  /\ previewData s' = firstSheet workbook
  /\ (forall d, handleDownload s' = Some d -> href d = body)
  /\ match renderPreviewTable s' with
     | None => firstSheet workbook = []
     | Some t =>
         headerCells t :: bodyRows t = firstn 20 (firstSheet workbook)
         /\ bodyRows t = firstn 19 (tl (firstSheet workbook))
         /\ length (bodyRows t) <= 19
     end.
Proof.
  intros H Hr Hx.
  apply handleSubmit_posted in H as [f [_ [_ [_ [_ ->]]]]].
  rewrite Hr, (settled_parsed s body Hx).
  split; [reflexivity|]. split; [reflexivity|]. split.
  - unfold handleDownload; cbn [extractedBlob setExtractionStats setPreviewData
      setIsLoading setDownloadLink setExtractedBlob].
    intros d. destruct (truthy _); [|discriminate].
    intros E; injection E as <-. reflexivity.
  - unfold renderPreviewTable;
      cbn [previewData setExtractionStats setPreviewData].
    destruct (firstSheet workbook) as [|header rows]; [reflexivity|].
    cbn [length Nat.eqb]. unfold maxPreviewRows.
    rewrite (firstn_cons 19 header rows).
    cbn [nth skipn headerCells bodyRows tl].
    repeat split. rewrite length_firstn. lia.
Qed.

(** C8.  A request is posted only for a selected file whose lowercased
    name ends with ".pdf", and that file is the one posted; with no file, or
    with any other name, validation fails with its message set and
    nothing is posted. *)
Theorem C8_request_only_for_pdf server s :
  (forall req, snd (handleSubmit server s) = Some req ->
     exists f, pdfFile s = Some f
       /\ endsWith (toLowerCase (name f)) (str ".pdf") = true
       /\ req_file req = f)
  /\ (~ fileAccepted s ->
      fst (validateInputs s) = false
      /\ snd (handleSubmit server s) = None
      /\ fileMessage (error (fst (handleSubmit server s)))).
Proof.
  split.
  - intros req H.
    destruct (handleSubmit server s) as [s' r] eqn:E; simpl in H; subst r.
    apply handleSubmit_posted in E as [f [Hf [_ [Hp [-> _]]]]].
    exists f; auto.
  - intros Hn. pose proof (validateInputs_spec s) as V.
    assert (Hno : forall f, pdfFile s = Some f ->
              endsWith (toLowerCase (name f)) (str ".pdf") = true -> False).
    { intros f Hf Hp. apply Hn. now exists f. }
    destruct (fst (validateInputs s)) eqn:Hv.
    + apply Validation_true in V as [_ [f [Hf [Hp _]]]]. now destruct (Hno f).
    + split; [reflexivity|]. rewrite (handleSubmit_rejected server s Hv).
      split; [reflexivity|]. cbn [fst].
      inversion V as [Hf E|f Hf Hp E|f Hf Hp|f Hf Hp|f Hf Hp|];
        try (now destruct (Hno f)); cbn [error setError];
        unfold fileMessage; tauto.
Qed.

End Results.

(* ================================================================== *)
(** * Validation of the schema and of the sample-page limit *)
(* ================================================================== *)

Section Inputs.

Context {Cell : Type} {P : Platform Cell}.

Implicit Types (s : AppState Cell) (server : Request -> AxiosOutcome).

Lemma columnList_spec (cols : jsstring) :
  let entries := map trim (split ","%char cols) in
  Subseq (columnList cols) entries
  /\ (forall c, In c (columnList cols) <-> c <> [] /\ In c entries)
  /\ (forall c, In c (columnList cols) -> trim c = c)
  /\ (forall c, c <> [] ->
        count_occ (list_eq_dec ascii_dec) (columnList cols) c
        = count_occ (list_eq_dec ascii_dec) entries c).
Proof.
  intros entries. unfold columnList. fold entries.
  assert (Hin : forall c, In c (filter truthy entries) <-> c <> [] /\ In c entries).
  { intros c. rewrite filter_In, truthy_true_iff. tauto. }
  split; [apply filter_Subseq|]. split; [exact Hin|]. split.
  - intros c Hc. apply Hin in Hc as [_ Hc].
    unfold entries in Hc. apply in_map_iff in Hc as [e [<- _]].
    apply trim_idem.
  - intros c Hc. now apply count_occ_filter_truthy.
Qed.

(** C3, as amended.  The column list sent with a request is the caller's
    comma-separated entries, each trimmed, the empty ones removed, in the
    caller's order; a name entered several times is sent as many times. *)
Theorem C3_columns_sent_in_input_order server s s' req :
  handleSubmit server s = (s', Some req) ->
  let entries := map trim (split ","%char (columns s)) in
  Subseq (req_columns req) entries
  /\ (forall c, In c (req_columns req) <-> c <> [] /\ In c entries)
  /\ (forall c, In c (req_columns req) -> trim c = c)
  /\ (forall c, c <> [] ->
        count_occ (list_eq_dec ascii_dec) (req_columns req) c
        = count_occ (list_eq_dec ascii_dec) entries c)
  /\ req_columns req <> [].
Proof.
  intros H entries.
  apply handleSubmit_posted in H as [f [_ [Hv [_ [-> _]]]]].
  cbn [formData req_columns].
  destruct (columnList_spec (columns s)) as [H1 [H2 [H3 H4]]].
  split; [exact H1|]. split; [exact H2|]. split; [exact H3|].
  split; [exact H4|].
  pose proof (validateInputs_spec s) as V. rewrite Hv in V.
  now apply Validation_true in V as [_ [f' [_ [_ [Hc _]]]]].
Qed.

Lemma schemaMessage_not_sample :
  ~ schemaMessage (str "Sample pages must be a positive number").
Proof. intros [H|H]; vm_compute in H; discriminate. Qed.

(** C4.  With a file that passes the file tests, validation fails on the
    schema exactly when the comma-separated input, its entries trimmed and
    the empty ones removed, is the empty list; the message is set at once
    and nothing is posted. *)
Theorem C4_empty_schema_rejected server s :
  fileAccepted s ->
  ((fst (validateInputs s) = false
    /\ schemaMessage (error (snd (validateInputs s))))
   <-> columnList (columns s) = [])
  /\ (columnList (columns s) = [] ->
      handleSubmit server s = (snd (validateInputs s), None)
      /\ schemaMessage (error (fst (handleSubmit server s)))).
Proof.
  intros [f0 [Hf0 Hp0]].
  pose proof (validateInputs_spec s) as V.
  assert (Hiff : (fst (validateInputs s) = false
                  /\ schemaMessage (error (snd (validateInputs s))))
                 <-> columnList (columns s) = []).
  { destruct (fst (validateInputs s)) eqn:Hv.
    - apply Validation_true in V as [_ [f [_ [_ [Hc _]]]]].
      split; [intros [? _]; discriminate | intros E; now destruct Hc].
    - inversion V as [Hf E|f Hf Hp E|f Hf Hp Ht E|f Hf Hp Ht Hc E
                     |f Hf Hp Hc Hs Hn E|]; cbn [error setError].
      + congruence.
      + congruence.
      + split; [intros _; now apply columnList_blank|].
        intros _; split; [reflexivity | now left].
      + split; [intros _; exact Hc|].
        intros _; split; [reflexivity | now right].
      + split; [intros [_ Hm]; now apply schemaMessage_not_sample in Hm
               | intros E'; now destruct Hc]. }
  split; [exact Hiff|].
  intros Hc. apply Hiff in Hc as [Hv Hm].
  rewrite (handleSubmit_rejected server s Hv). split; [reflexivity | exact Hm].
Qed.

Lemma parseInt_some_nonempty x z : parseInt x = Some z -> truthy x = true.
Proof. destruct x; [discriminate | reflexivity]. Qed.

(** C5.  A supplied limit that is not a number, or that parses to a value
    at most 0, fails validation and nothing is posted; a limit that is a
    number and parses to a positive value is posted as that parsed integer;
    with no limit supplied the request carries none. *)
Theorem C5_sample_page_limit server s :
  (samplePages s <> [] ->
   (isNaN (samplePages s) = true
    \/ exists z, parseInt (samplePages s) = Some z /\ (z <= 0)%Z) ->
   fst (validateInputs s) = false
   /\ snd (handleSubmit server s) = None
   /\ truthy (error (fst (handleSubmit server s))) = true)
  /\ (forall z,
        isNaN (samplePages s) = false ->
        parseInt (samplePages s) = Some z ->
        (0 < z)%Z ->
        (forall req, snd (handleSubmit server s) = Some req ->
                     req_sample_pages req = Some z)
        /\ (fileAccepted s -> columnList (columns s) <> [] ->
            exists req, snd (handleSubmit server s) = Some req))
  /\ (samplePages s = [] ->
      (forall req, snd (handleSubmit server s) = Some req ->
                   req_sample_pages req = None)
      /\ (fileAccepted s -> columnList (columns s) <> [] ->
          exists req, snd (handleSubmit server s) = Some req)).
Proof.
  pose proof (validateInputs_spec s) as V.
  assert (Hreq : forall req, snd (handleSubmit server s) = Some req ->
            exists f, req = formData s f).
  { intros req H. destruct (handleSubmit server s) as [s' r] eqn:E.
    simpl in H; subst r.
    apply handleSubmit_posted in E as [f [_ [_ [_ [-> _]]]]]. now exists f. }
  assert (Hpost : truthy (samplePages s)
                  && (isNaN (samplePages s) || parseInt_le0 (samplePages s))
                  = false ->
            fileAccepted s -> columnList (columns s) <> [] ->
            exists req, snd (handleSubmit server s) = Some req).
  { intros Hs [f [Hf Hp]] Hc.
    assert (Hv : fst (validateInputs s) = true).
    { unfold validateInputs. rewrite Hf, Hp. cbn [negb].
      destruct (truthy (trim (columns s))) eqn:Ht; cbn [negb].
      - destruct (length (columnList (columns s)) =? 0) eqn:Hl.
        + apply length_zero_nil in Hl. now destruct Hc.
        + now rewrite Hs.
      - destruct (trim (columns s)) eqn:Hn; [|discriminate].
        apply columnList_blank in Hn. now destruct Hc. }
    rewrite (handleSubmit_accepted server s Hf Hv). eexists; reflexivity. }
  split; [|split].
  - intros Hne Hbad.
    assert (Hs : truthy (samplePages s)
                 && (isNaN (samplePages s) || parseInt_le0 (samplePages s))
                 = true).
    { apply truthy_true_iff in Hne. rewrite Hne. cbn [andb].
      destruct Hbad as [-> | [z [Hz Hle]]]; [reflexivity|].
      unfold parseInt_le0. rewrite Hz.
      apply Z.leb_le in Hle. rewrite Hle. apply orb_true_r. }
    destruct (fst (validateInputs s)) eqn:Hv.
    + apply Validation_true in V as [_ [f [_ [_ [_ Hs']]]]]. congruence.
    + split; [reflexivity|]. rewrite (handleSubmit_rejected server s Hv).
      split; [reflexivity|]. cbn [fst].
      apply Validation_false in V as [e [-> [He _]]]. exact He.
  - intros z Hnan Hz Hpos. split.
    + intros req H. apply Hreq in H as [f ->].
      cbn [formData req_sample_pages].
      rewrite (parseInt_some_nonempty _ Hz), Hnan. unfold parseInt_gt0.
      rewrite Hz. apply Z.ltb_lt in Hpos. now rewrite Hpos.
    + apply Hpost. rewrite Hnan. unfold parseInt_le0. rewrite Hz.
      assert (Hle : (z <=? 0)%Z = false) by (apply Z.leb_gt; lia).
      rewrite Hle. apply andb_false_r.
  - intros He. split.
    + intros req H. apply Hreq in H as [f ->].
      cbn [formData req_sample_pages]. now rewrite He.
    + apply Hpost. now rewrite He.
Qed.

End Inputs.

(* ================================================================== *)
(** * What the caller sees after a submission *)
(* ================================================================== *)

Section Outcome.

Context {Cell : Type} {P : Platform Cell}.

Implicit Types (s : AppState Cell) (server : Request -> AxiosOutcome).

Lemma statusLine_truthy r : truthy (statusLine r) = true.
Proof. reflexivity. Qed.


Lemma settled_rejected s o :
  (forall body, o <> Resolved body) ->
  settled o (cleared s)
  = setIsLoading false (setError (catchMessage o) (cleared s)).
Proof.
  intros H. destruct o as [body| | |]; try reflexivity. now destruct (H body).
Qed.


End Outcome.

(* ================================================================== *)
(** * Sessions keep the results with the selected file *)
(* ================================================================== *)

Section Sessions.

Context {Cell : Type} {P : Platform Cell}.

Implicit Types (s : AppState Cell) (x : Session Cell).

Lemma holdsResult_cleared s o :
  (forall body, o <> Resolved body) -> ~ holdsResult (settled o (cleared s)).
Proof.
  intros H. rewrite settled_rejected by exact H.
  intros [R|[R|R]]; now apply R.
Qed.

Lemma Consistent_session0 : Consistent (@session0 Cell).
Proof.
  repeat split. intros [R|[R|R]]; now destruct R.
Qed.

Lemma Consistent_step x e : Consistent x -> Consistent (step x e).
Proof.
  intros [Hl [Hn Hr]].
  destruct e as [file|v|v|v|server| |]; cbn [step].
  - split; [exact Hl|]. split; [now destruct file|].
    intros [R|[R|R]]; now destruct R.
  - split; [exact Hl|]. split; [exact Hn | exact Hr].
  - split; [exact Hl|]. split; [exact Hn | exact Hr].
  - split; [exact Hl|]. split; [exact Hn | exact Hr].
  - destruct (handleSubmit_cases server (ui x))
      as [[Hv E]|[f [Hf [Hv [Hp E]]]]]; rewrite E; cbn [ui exchanges].
    + pose proof (validateInputs_spec (ui x)) as V. rewrite Hv in V.
      apply Validation_false in V as [e [-> _]].
      split; [exact Hl|]. split; [exact Hn | exact Hr].
    + destruct (server (formData (ui x) f)) as [body|r| |m] eqn:Ho.
      * split; [|split].
        -- unfold settled, onload. now destruct (XLSX_read body).
        -- unfold settled, onload. now destruct (XLSX_read body).
        -- intros _. exists (formData (ui x) f), body, (exchanges x).
           split; [reflexivity|].
           unfold settled, onload. now destruct (XLSX_read body).
      * split; [reflexivity|]. split; [exact Hn|].
        intros R. exfalso. revert R. apply holdsResult_cleared. discriminate.
      * split; [reflexivity|]. split; [exact Hn|].
        intros R. exfalso. revert R. apply holdsResult_cleared. discriminate.
      * split; [reflexivity|]. split; [exact Hn|].
        intros R. exfalso. revert R. apply holdsResult_cleared. discriminate.
  - split; [exact Hl|]. split; [exact Hn | exact Hr].
  - destruct (completePanel (render (ui x))); cbn [ui exchanges].
    + split; [exact Hl|]. split; [exact Hn|].
      intros [R|[R|R]]; now destruct R.
    + split; [exact Hl|]. split; [exact Hn | exact Hr].
Qed.

(** Every session reached from the initial render is consistent. *)
Lemma Consistent_run events x : Consistent x -> Consistent (run events x).
Proof.
  revert x. induction events as [|e events IH]; intros x Hx; [exact Hx|].
  apply IH. now apply Consistent_step.
Qed.




Lemma act_submit_rejected server (p : Page Cell) :
  isLoading (cells p) = false ->
  fst (validateInputs (cells p)) = false ->
  act p (Submit server) = withCells p (snd (validateInputs (cells p))).
Proof.
  intros Hl Hv. cbn [act]. rewrite Hl.
  destruct (validateInputs (cells p)) as [b s0]. cbn [fst snd] in *.
  now subst b.
Qed.

Lemma act_submit_accepted server (p : Page Cell) f :
  isLoading (cells p) = false ->
  pdfFile (cells p) = Some f ->
  fst (validateInputs (cells p)) = true ->
  act p (Submit server)
  = {| cells := cleared (cells p);
       posting := Some (formData (cells p) f, server (formData (cells p) f));
       reading := reading p;
       requests := formData (cells p) f :: requests p;
       answers := answers p;
       files := files p |}.
Proof.
  intros Hl Hf Hv. cbn [act]. rewrite Hl.
  pose proof (validateInputs_spec (cells p)) as V.
  destruct (validateInputs (cells p)) as [b s0]. cbn [fst snd] in *. subst b.
  apply Validation_true in V as [-> _]. cbn [negb]. now rewrite Hf.
Qed.

(** With nothing pending, the handler up to the [await], the settling of
    the post and the reader's callback, run one after the other, give the
    cells of [handleSubmit]. *)
Lemma perform_submission server (p : Page Cell) :
  isLoading (cells p) = false ->
  posting p = None ->
  reading p = [] ->
  cells (perform [Submit server; Respond; ReaderLoads 0] p)
  = fst (handleSubmit server (cells p)).
Proof.
  destruct p as [c po rd rq an fl]. cbn [cells posting reading].
  intros Hl -> ->. cbn [perform fold_left].
  set (p := {| cells := c; posting := None; reading := [];
               requests := rq; answers := an; files := fl |}).
  destruct (handleSubmit_cases server c)
    as [[Hv E]|[f [Hf [Hv [_ E]]]]]; rewrite E; cbn [fst].
  - rewrite (act_submit_rejected server p Hl Hv). reflexivity.
  - rewrite (act_submit_accepted server p Hl Hf Hv).
    cbn [act posting reading cells p].
    destruct (server (formData c f)) as [body|r| |m]; reflexivity.
Qed.






End Sessions.

(* ================================================================== *)
(** * The name of the downloaded file *)
(* ================================================================== *)

Section DownloadName.

Context {Cell : Type} {P : Platform Cell}.

Lemma replace_eq pat rep s :
  replace pat rep s
  = if startsWith s pat then rep ++ skipn (length pat) s
    else match s with
         | [] => []
         | c :: r => c :: replace pat rep r
         end.
Proof. destruct s; reflexivity. Qed.

Lemma startsWith_iff s p :
  startsWith s p = true <-> firstn (length p) s = p.
Proof.
  revert s. induction p as [|a p IH]; intros [|b s]; simpl.
  - tauto.
  - tauto.
  - split; discriminate.
  - rewrite andb_true_iff, Ascii.eqb_eq, IH. split.
    + intros [-> ->]. reflexivity.
    + intros E. injection E as -> E. auto.
Qed.

Lemma occursAt_0 pat s : occursAt pat s 0 <-> startsWith s pat = true.
Proof. unfold occursAt. simpl. symmetry. apply startsWith_iff. Qed.

Lemma occursAt_S pat c s i : occursAt pat (c :: s) (S i) <-> occursAt pat s i.
Proof. unfold occursAt. simpl. tauto. Qed.

(** [replace] rewrites the leftmost occurrence and nothing else. *)
Lemma replace_leftmost pat rep pre post :
  (forall i, i < length pre -> ~ occursAt pat (pre ++ pat ++ post) i) ->
  replace pat rep (pre ++ pat ++ post) = pre ++ rep ++ post.
Proof.
  induction pre as [|c pre IH]; intros H; rewrite replace_eq.
  - cbn [app].
    assert (E : startsWith (pat ++ post) pat = true).
    { apply startsWith_iff. rewrite firstn_app, Nat.sub_diag, firstn_all.
      simpl. apply app_nil_r. }
    rewrite E. f_equal.
    rewrite skipn_app, Nat.sub_diag, skipn_all. reflexivity.
  - assert (E : startsWith ((c :: pre) ++ pat ++ post) pat = false).
    { destruct (startsWith _ pat) eqn:E; [|reflexivity].
      apply occursAt_0 in E. apply H in E; [contradiction | simpl; lia]. }
    rewrite E. cbn [app]. f_equal. apply IH.
    intros i Hi Ho. apply (H (S i)); [simpl; lia|].
    cbn [app]. now apply occursAt_S.
Qed.

(** Without an occurrence, [replace] returns its input. *)
Lemma replace_absent pat rep s :
  (forall i, ~ occursAt pat s i) -> replace pat rep s = s.
Proof.
  induction s as [|c s IH]; intros H; rewrite replace_eq.
  - destruct (startsWith [] pat) eqn:E; [|reflexivity].
    apply occursAt_0 in E. now apply H in E.
  - destruct (startsWith (c :: s) pat) eqn:E.
    + apply occursAt_0 in E. now apply H in E.
    + f_equal. apply IH. intros i Ho. apply (H (S i)). now apply occursAt_S.
Qed.

Lemma endsWith_nonempty s p :
  p <> [] -> endsWith s p = true -> truthy s = true.
Proof.
  unfold endsWith. intros Hp H. apply andb_true_iff in H as [H _].
  apply Nat.leb_le in H.
  destruct s; [|reflexivity]. destruct p; [congruence | simpl in H; lia].
Qed.

(** C10.  In every session, for a selected file whose name was accepted,
    the saved file is named "extracted_" followed by the file's name in
    which the leftmost ".pdf", in lower case, is replaced by ".xlsx" and
    nothing else is changed; a name without a lower-case ".pdf" is kept as
    it is, so for some accepted names the saved name does not end in
    ".xlsx". *)
Theorem C10_download_filename :
  (forall events f body,
     let x := run events session0 in
     pdfFile (ui x) = Some f ->
     endsWith (toLowerCase (name f)) (str ".pdf") = true ->
     extractedBlob (ui x) = Some body ->
     handleDownload (ui x)
     = Some {| download :=
                 str "extracted_"
                 ++ replace (str ".pdf") (str ".xlsx") (name f);
               href := body |})
  /\ (forall pre post,
        (forall i, i < length pre ->
                   ~ occursAt (str ".pdf") (pre ++ str ".pdf" ++ post) i) ->
        replace (str ".pdf") (str ".xlsx") (pre ++ str ".pdf" ++ post)
        = pre ++ str ".xlsx" ++ post)
  /\ (forall n,
        (forall i, ~ occursAt (str ".pdf") n i) ->
        replace (str ".pdf") (str ".xlsx") n = n)
  /\ (exists n,
        endsWith (toLowerCase n) (str ".pdf") = true
        /\ endsWith
             (str "extracted_" ++ replace (str ".pdf") (str ".xlsx") n)
             (str ".xlsx") = false).
Proof.
  split; [|split; [|split]].
  - intros events f body x Hf Hp Hb.
    destruct (Consistent_run events (@Consistent_session0 Cell))
      as [_ [Hn _]].
    fold x in Hn. rewrite Hf in Hn.
    unfold handleDownload. rewrite Hb, Hn.
    assert (Ht : truthy (name f) = true).
    { apply endsWith_nonempty in Hp; [|discriminate].
      unfold toLowerCase in Hp. now destruct (name f). }
    now rewrite Ht.
  - intros pre post. apply replace_leftmost.
  - intros n. apply replace_absent.
  - exists (str "SURVEY.PDF"). split; reflexivity.
Qed.

End DownloadName.

(* ================================================================== *)
(** * The theorems on concrete inputs *)
(* ================================================================== *)

(** [readyState] submitted to a back end that answers [threeByTwo]: three
    rows are read, so two data rows. *)
Lemma C1_witness :
  let submitted :=
    handleSubmit (P := demoPlatform) (answering threeByTwo) readyState in
  exists st,
    extractionStats (fst submitted) = Some st
    /\ totalRows st = 2%Z
    /\ hasData st = true.
Proof.
  destruct (@C1_total_rows_and_hasData jsstring demoPlatform
              (answering threeByTwo) readyState
              (fst (handleSubmit (P := demoPlatform)
                      (answering threeByTwo) readyState))
              (formData readyState surveyPdf) threeByTwo
              [map (fun x => repeat (str "cell") (Byte.to_nat x)) threeByTwo]
              eq_refl eq_refl eq_refl)
    as [st [E [R1 [_ HD]]]].
  exists st. split; [exact E|].
  assert (R : totalRows st = 2%Z) by (rewrite R1; [reflexivity | discriminate]).
  split; [exact R|]. apply HD. rewrite R. reflexivity.
Defined.

(** The same submission: the header read has three cells. *)
Lemma C2_witness :
  let submitted :=
    handleSubmit (P := demoPlatform) (answering threeByTwo) readyState in
  exists st,
    extractionStats (fst submitted) = Some st /\ totalColumns st = 3%Z.
Proof.
  destruct (@C2_total_columns_from_header jsstring demoPlatform
              (answering threeByTwo) readyState
              (fst (handleSubmit (P := demoPlatform)
                      (answering threeByTwo) readyState))
              (formData readyState surveyPdf) threeByTwo
              [map (fun x => repeat (str "cell") (Byte.to_nat x)) threeByTwo]
              eq_refl eq_refl eq_refl)
    as [st [E [R _]]].
  exists st. split; [exact E | exact R].
Defined.

(** Four column names are sent and the artifact that comes back has a
    header of three cells: [totalColumns] is 3, not the 4 of the schema. *)
Lemma C2_counterexample :
  let submitted :=
    handleSubmit (P := demoPlatform) (answering threeByTwo) readyState in
  option_map (fun req => length (req_columns req)) (snd submitted) = Some 4
  /\ option_map totalColumns (extractionStats (fst submitted)) = Some 3%Z.
Proof. split; reflexivity. Qed.

Lemma C3_witness :
  let req := formData repeatedColumns surveyPdf in
  snd (handleSubmit (P := demoPlatform) (answering threeByTwo) repeatedColumns)
  = Some req
  /\ Subseq (req_columns req)
       (map trim (split ","%char (columns repeatedColumns)))
  /\ req_columns req <> [].
Proof.
  split; [reflexivity|].
  destruct (@C3_columns_sent_in_input_order jsstring demoPlatform
              (answering threeByTwo) repeatedColumns
              (fst (handleSubmit (P := demoPlatform)
                      (answering threeByTwo) repeatedColumns))
              (formData repeatedColumns surveyPdf) eq_refl)
    as [H1 [_ [_ [_ H5]]]].
  split; [exact H1 | exact H5].
Defined.

(** "Species, Location,Species" is sent with "Species" twice: the list is
    no set. *)
Lemma C3_counterexample :
  option_map req_columns
    (snd (handleSubmit (P := demoPlatform) (answering threeByTwo)
            repeatedColumns))
  = Some [str "Species"; str "Location"; str "Species"]
  /\ ~ NoDup [str "Species"; str "Location"; str "Species"].
Proof.
  split; [reflexivity|].
  intros H. inversion H as [|x l Hin _]; subst. apply Hin. right; left.
  reflexivity.
Qed.

(** The column input " , " has two entries, both empty once trimmed. *)
Lemma C4_witness :
  fileAccepted blankColumns
  /\ columnList (columns blankColumns) = []
  /\ handleSubmit (P := demoPlatform) (answering threeByTwo) blankColumns
     = (setError (str "Please specify valid column names") blankColumns, None).
Proof.
  assert (A : fileAccepted blankColumns)
    by (exists surveyPdf; split; reflexivity).
  split; [exact A|]. split; [reflexivity|].
  destruct (@C4_empty_schema_rejected jsstring demoPlatform
              (answering threeByTwo) blankColumns A) as [_ H].
  destruct (H eq_refl) as [E _]. exact E.
Defined.

(** Limits "0" and "abc" stop at validation, "3" is posted as 3, and the
    empty limit posts none. *)
Lemma C5_witness :
  snd (handleSubmit (P := demoPlatform) (answering threeByTwo)
         (setSamplePages (str "0") readyState)) = None
  /\ snd (handleSubmit (P := demoPlatform) (answering threeByTwo)
            (setSamplePages (str "abc") readyState)) = None
  /\ (forall req,
        snd (handleSubmit (P := demoPlatform) (answering threeByTwo)
               (setSamplePages (str "3") readyState)) = Some req ->
        req_sample_pages req = Some 3%Z)
  /\ (forall req,
        snd (handleSubmit (P := demoPlatform) (answering threeByTwo)
               readyState) = Some req ->
        req_sample_pages req = None).
Proof.
  split; [|split; [|split]].
  - destruct (@C5_sample_page_limit jsstring demoPlatform
                (answering threeByTwo) (setSamplePages (str "0") readyState))
      as [H _].
    destruct H as [_ [E _]]; [discriminate | right | exact E].
    exists 0%Z. split; [reflexivity | discriminate].
  - destruct (@C5_sample_page_limit jsstring demoPlatform
                (answering threeByTwo) (setSamplePages (str "abc") readyState))
      as [H _].
    destruct H as [_ [E _]]; [discriminate | left; reflexivity | exact E].
  - destruct (@C5_sample_page_limit jsstring demoPlatform
                (answering threeByTwo) (setSamplePages (str "3") readyState))
      as [_ [H _]].
    destruct (H 3%Z eq_refl eq_refl eq_refl) as [E _]. exact E.
  - destruct (@C5_sample_page_limit jsstring demoPlatform
                (answering threeByTwo) readyState) as [_ [_ H]].
    destruct (H eq_refl) as [E _]. exact E.
Defined.

Lemma C6_witness :
  let s' :=
    fst (handleSubmit (P := demoPlatform) (answering threeByTwo) readyState) in
  extractedBlob s' = Some threeByTwo
  /\ previewData s' = repeat (repeat (str "cell") 3) 3
  /\ option_map (fun t => length (bodyRows t)) (renderPreviewTable s') = Some 2.
Proof.
  destruct (@C6_preview_from_download_bytes jsstring demoPlatform
              (answering threeByTwo) readyState
              (fst (handleSubmit (P := demoPlatform)
                      (answering threeByTwo) readyState))
              (formData readyState surveyPdf) threeByTwo
              [map (fun x => repeat (str "cell") (Byte.to_nat x)) threeByTwo]
              eq_refl eq_refl eq_refl)
    as [H1 [H2 _]].
  split; [exact H1|]. split; [exact H2 | reflexivity].
Defined.



Lemma C8_witness :
  snd (handleSubmit (P := demoPlatform) (answering threeByTwo)
         (handleFileChange (Some notesTxt) readyState)) = None
  /\ snd (handleSubmit (P := demoPlatform) (answering threeByTwo)
            (handleFileChange None readyState)) = None
  /\ option_map req_file
       (snd (handleSubmit (P := demoPlatform) (answering threeByTwo)
               (handleFileChange (Some upperPdf) readyState)))
     = Some upperPdf.
Proof.
  split; [|split].
  - destruct (@C8_request_only_for_pdf jsstring demoPlatform
                (answering threeByTwo)
                (handleFileChange (Some notesTxt) readyState)) as [_ H].
    destruct H as [_ [E _]]; [|exact E].
    intros [f [Hf Hp]]. injection Hf as <-. discriminate.
  - destruct (@C8_request_only_for_pdf jsstring demoPlatform
                (answering threeByTwo)
                (handleFileChange None readyState)) as [_ H].
    destruct H as [_ [E _]]; [|exact E].
    intros [f [Hf Hp]]. discriminate.
  - destruct (@C8_request_only_for_pdf jsstring demoPlatform
                (answering threeByTwo)
                (handleFileChange (Some upperPdf) readyState)) as [H _].
    destruct (H (formData (handleFileChange (Some upperPdf) readyState) upperPdf)
                eq_refl) as [f [Hf [_ E]]].
    reflexivity.
Defined.



(** [upperPdf] is accepted and saved under a name that keeps ".PDF". *)
Lemma C10_witness :
  handleDownload (ui (run (P := demoPlatform) secondExtraction session0))
  = Some {| download := str "extracted_SURVEY.PDF"; href := threeByTwo |}
  /\ replace (str ".pdf") (str ".xlsx") (str "a.pdf.pdf") = str "a.xlsx.pdf".
Proof.
  destruct (@C10_download_filename jsstring demoPlatform) as [H1 [H2 _]].
  split.
  - exact (H1 secondExtraction upperPdf threeByTwo eq_refl eq_refl eq_refl).
  - apply (H2 (str "a") (str ".pdf")).
    intros i Hi. assert (i = 0) as -> by (simpl in Hi; lia). discriminate.
Defined.

(* ================================================================== *)
(** * When a request is posted, and what it depends on *)
(* ================================================================== *)

Section Posting.

Context {Cell : Type} {P : Platform Cell}.

Implicit Types (s : AppState Cell) (server : Request -> AxiosOutcome).

Lemma validateInputs_passes s :
  fileAccepted s ->
  columnList (columns s) <> [] ->
  truthy (samplePages s)
  && (isNaN (samplePages s) || parseInt_le0 (samplePages s)) = false ->
  fst (validateInputs s) = true.
Proof.
  intros [f [Hf Hp]] Hc Hs. unfold validateInputs. rewrite Hf, Hp. cbn [negb].
  destruct (truthy (trim (columns s))) eqn:Ht; cbn [negb].
  - destruct (length (columnList (columns s)) =? 0) eqn:Hl.
    + apply length_zero_nil in Hl. now destruct Hc.
    + now rewrite Hs.
  - destruct (trim (columns s)) eqn:Hn; [|discriminate].
    apply columnList_blank in Hn. now destruct Hc.
Qed.

Lemma limit_test_false (x : jsstring) :
  truthy x && (isNaN x || parseInt_le0 x) = false
  <-> x = [] \/ (isNaN x = false /\ parseInt_le0 x = false).
Proof.
  destruct x as [|c x]; cbn [truthy andb].
  - split; [now left | reflexivity].
  - rewrite orb_false_iff. split; [now right | intros [H|H]; [discriminate | exact H]].
Qed.

(** X1.  A request is posted exactly when a file is selected whose
    lowercased name ends with ".pdf", some column name is left after
    trimming, and the limit is empty or is a number that does not parse to
    a value at most 0. *)
Theorem X1_request_posted_iff server s :
  (exists req, snd (handleSubmit server s) = Some req)
  <-> fileAccepted s
      /\ columnList (columns s) <> []
      /\ (samplePages s = []
          \/ (isNaN (samplePages s) = false
              /\ parseInt_le0 (samplePages s) = false)).
Proof.
  split.
  - intros [req H].
    destruct (handleSubmit server s) as [s' r] eqn:E; simpl in H; subst r.
    apply handleSubmit_posted in E as [f [Hf [Hv _]]].
    pose proof (validateInputs_spec s) as V. rewrite Hv in V.
    apply Validation_true in V as [_ [f' [Hf' [Hp [Hc Hs]]]]].
    split; [now exists f'|]. split; [exact Hc|]. now apply limit_test_false.
  - intros [Ha [Hc Hs]].
    assert (Hv : fst (validateInputs s) = true).
    { apply validateInputs_passes; auto. now apply limit_test_false. }
    destruct Ha as [f [Hf _]].
    rewrite (handleSubmit_accepted server s Hf Hv). eexists; reflexivity.
Qed.

(** X2.  A limit that is posted is positive and is what [parseInt] reads
    from the limit field, which [isNaN] takes for a number; a request is
    posted without a limit exactly when the field is empty or [parseInt]
    reads no number from it. *)
Theorem X2_posted_limit_positive server s req :
  snd (handleSubmit server s) = Some req ->
  (forall z, req_sample_pages req = Some z ->
     (0 < z)%Z
     /\ parseInt (samplePages s) = Some z
     /\ isNaN (samplePages s) = false)
  /\ (req_sample_pages req = None
      <-> samplePages s = [] \/ parseInt (samplePages s) = None).
Proof.
  intros H.
  destruct (handleSubmit server s) as [s' r] eqn:E; simpl in H; subst r.
  apply handleSubmit_posted in E as [f [Hf [Hv [_ [-> _]]]]].
  pose proof (validateInputs_spec s) as V. rewrite Hv in V.
  apply Validation_true in V as [_ [_ [_ [_ [_ Hs]]]]].
  apply limit_test_false in Hs. cbn [formData req_sample_pages].
  destruct Hs as [He | [Hn Hle]].
  - rewrite He. cbn. split; [discriminate | split; auto].
  - rewrite Hn. cbn [negb andb]. unfold parseInt_gt0, parseInt_le0 in *.
    destruct (samplePages s) as [|c x] eqn:Hx;
      [cbn; split; [discriminate | split; auto]|].
    cbn [truthy andb].
    destruct (parseInt (c :: x)) as [z|] eqn:Hz.
    + apply Z.leb_gt in Hle.
      assert (Hg : (0 <? z)%Z = true) by (apply Z.ltb_lt; lia).
      rewrite Hg. split.
      * intros z' E'. injection E' as <-. auto.
      * split; [discriminate | intros [?|?]; discriminate].
    + split; [discriminate | split; auto].
Qed.

Lemma sameInputs_validate (s1 s2 : AppState Cell) :
  sameInputs s1 s2 ->
  fst (validateInputs s1) = fst (validateInputs s2)
  /\ (fst (validateInputs s1) = false ->
      error (snd (validateInputs s1)) = error (snd (validateInputs s2))).
Proof.
  intros (Hf & Hc & _ & Hs). unfold validateInputs.
  rewrite <- Hf, <- Hc, <- Hs.
  destruct (pdfFile s1) as [f|]; [|split; reflexivity].
  destruct (negb (endsWith _ _)); [split; reflexivity|].
  destruct (negb (truthy _)); [split; reflexivity|].
  destruct (length _ =? 0); [split; reflexivity|].
  destruct (truthy _ && _); [split; reflexivity|].
  split; [reflexivity | discriminate].
Qed.

Lemma sameInputs_formData (s1 s2 : AppState Cell) f :
  sameInputs s1 s2 -> formData s1 f = formData s2 f.
Proof.
  intros (_ & Hc & Hn & Hs). unfold formData. now rewrite Hc, Hn, Hs.
Qed.

Lemma sameResults_settled o (s1 s2 : AppState Cell) :
  sameResults (settled o (cleared s1)) (settled o (cleared s2)).
Proof.
  destruct o as [body|r| |m]; unfold settled, onload;
    [destruct (XLSX_read body)| | |]; repeat split.
Qed.

(** A submission leaves the cells the user fills in as they were. *)
Lemma handleSubmit_keeps_inputs server s :
  sameInputs s (fst (handleSubmit server s)).
Proof.
  destruct (handleSubmit_cases server s) as [[Hv E]|[f [Hf [Hv [_ E]]]]];
    rewrite E; cbn [fst].
  - pose proof (validateInputs_spec s) as V. rewrite Hv in V.
    apply Validation_false in V as [e [-> _]]. repeat split.
  - destruct (server (formData s f)) as [body|r| |m]; unfold settled, onload;
      [destruct (XLSX_read body)| | |]; repeat split.
Qed.

Lemma sameInputs_posted server (s1 s2 : AppState Cell) :
  sameInputs s1 s2 ->
  snd (handleSubmit server s1) = snd (handleSubmit server s2)
  /\ (fst (validateInputs s1) = true ->
      sameResults (fst (handleSubmit server s1)) (fst (handleSubmit server s2))).
Proof.
  intros H. destruct (sameInputs_validate H) as [Hb _].
  destruct (handleSubmit_cases server s1) as [[Hv E]|[f [Hf [Hv [_ E]]]]].
  - rewrite E, (handleSubmit_rejected server s2) by congruence.
    split; [reflexivity | congruence].
  - assert (Hf2 : pdfFile s2 = Some f) by (destruct H as [<- _]; exact Hf).
    rewrite E, (handleSubmit_accepted server s2 Hf2) by congruence.
    rewrite <- (sameInputs_formData f H). cbn [fst snd].
    split; [reflexivity | intros _; apply sameResults_settled].
Qed.

(** X3.  What a submission posts, and every cell it writes when it is
    posted, depend on the selected file, the column input, the
    instructions and the limit only: nothing of an earlier result or error
    enters. *)
Theorem X3_submission_depends_on_inputs_only server (s1 s2 : AppState Cell) :
  sameInputs s1 s2 ->
  snd (handleSubmit server s1) = snd (handleSubmit server s2)
  /\ (fst (validateInputs s1) = true ->
      sameResults (fst (handleSubmit server s1)) (fst (handleSubmit server s2))).
Proof. apply sameInputs_posted. Qed.

Lemma cleared_settled o s :
  cleared (settled o (cleared s)) = cleared s.
Proof.
  destruct o as [body|r| |m]; try reflexivity.
  unfold settled, onload. destruct (XLSX_read body); reflexivity.
Qed.

(** X5.  Discarding removes the completion panel, the preview and the
    download and keeps the error message; the form then posts what it
    would have posted before, and a submission that passes validation
    ends in the same state as without the discard. *)
Theorem X5_discard_keeps_submission server s :
  completePanel (render (handleDiscard s)) = None
  /\ previewTable (render (handleDiscard s)) = None
  /\ clickDownload (handleDiscard s) = None
  /\ errorBanner (render (handleDiscard s)) = errorBanner (render s)
  /\ snd (handleSubmit server (handleDiscard s)) = snd (handleSubmit server s)
  /\ (fst (validateInputs s) = true ->
      handleSubmit server (handleDiscard s) = handleSubmit server s).
Proof.
  assert (K : sameInputs (handleDiscard s) s) by (repeat split).
  split; [unfold render; cbn; now destruct (negb _)|].
  split; [reflexivity|].
  split; [unfold clickDownload, render; cbn; now destruct (negb _)|].
  split; [reflexivity|].
  split; [apply (sameInputs_posted server K)|].
  intros Hv. destruct (sameInputs_validate K) as [Hb _].
  pose proof (validateInputs_spec s) as V. rewrite Hv in V.
  apply Validation_true in V as [_ [f [Hf _]]].
  rewrite (handleSubmit_accepted server s Hf Hv).
  rewrite (handleSubmit_accepted server (handleDiscard s) (f := f))
    by (congruence || exact Hf).
  rewrite (sameInputs_formData f K). reflexivity.
Qed.

End Posting.

(* ================================================================== *)
(** * Submitting twice *)
(* ================================================================== *)

Section Resubmission.

Context {Cell : Type}.

Implicit Types (s : AppState Cell) (server : Request -> AxiosOutcome).

Lemma catchMessage_platforms (P1 P2 : Platform Cell) o :
  (forall t, JSON_parse (Platform := P1) t = JSON_parse (Platform := P2) t) ->
  catchMessage (P := P1) o = catchMessage (P := P2) o.
Proof.
  intros HJ. destruct o as [body|r| |m]; try reflexivity.
  unfold catchMessage. destruct (data r) as [[text|]|e]; try reflexivity.
  now rewrite HJ.
Qed.

Lemma settled_platforms (P1 P2 : Platform Cell) o s :
  (forall b, XLSX_read (Platform := P1) b = XLSX_read (Platform := P2) b) ->
  (forall t, JSON_parse (Platform := P1) t = JSON_parse (Platform := P2) t) ->
  sameButLink (settled (P := P2) o s) (settled (P := P1) o s)
  /\ (forall body,
        extractedBlob (settled (P := P2) o (cleared s)) = Some body ->
        downloadLink (settled (P := P2) o (cleared s))
        = createObjectURL (Platform := P2) body).
Proof.
  intros HX HJ. pose proof (catchMessage_platforms P1 P2 o HJ) as HC.
  destruct o as [body|r| |m]; unfold settled, onload.
  - rewrite HX. destruct (XLSX_read body); split; try (repeat split);
      intros b E; cbn in E; injection E as <-; reflexivity.
  - rewrite HC. split; [repeat split | discriminate].
  - split; [repeat split | discriminate].
  - split; [repeat split | discriminate].
Qed.

(** X4.  Submitting again, with nothing edited, the back end answering
    and the workbook reader reading as before, posts the same request and
    ends with every cell as after the first submission except the
    download link: [URL.createObjectURL] is called again, and the link of
    a posted resubmission is the URL of that second call. *)
Theorem X4_resubmission_idempotent (P1 P2 : Platform Cell) server s :
  (forall b, XLSX_read (Platform := P1) b = XLSX_read (Platform := P2) b) ->
  (forall t, JSON_parse (Platform := P1) t = JSON_parse (Platform := P2) t) ->
  let first := handleSubmit (P := P1) server s in
  let second := handleSubmit (P := P2) server (fst first) in
  snd second = snd first
  /\ sameButLink (fst second) (fst first)
  /\ (snd first <> None ->
      forall body,
        extractedBlob (fst second) = Some body ->
        downloadLink (fst second) = createObjectURL (Platform := P2) body).
Proof.
  intros HX HJ first second. subst first second.
  pose proof (handleSubmit_keeps_inputs (P := P1) server s) as K.
  destruct (sameInputs_validate K) as [Hb He].
  destruct (handleSubmit_cases (P := P1) server s)
    as [[Hv E]|[f [Hf [Hv [_ E]]]]].
  - rewrite E in *. cbn [fst snd] in *.
    rewrite (handleSubmit_rejected (P := P2)) by congruence. cbn [fst snd].
    split; [reflexivity|]. split; [|congruence].
    pose proof (validateInputs_spec s) as V. rewrite Hv in V.
    apply Validation_false in V as [e [E1 _]].
    pose proof (validateInputs_spec (snd (validateInputs s))) as V'.
    rewrite <- Hb, Hv in V'.
    apply Validation_false in V' as [e' [E2 _]].
    rewrite E2, E1. repeat split.
    specialize (He Hv). rewrite E2, E1 in He. cbn [error setError] in He.
    cbn [error setError]. congruence.
  - rewrite E in *. cbn [fst snd] in *.
    assert (Hf' : pdfFile (settled (P := P1) (server (formData s f)) (cleared s))
                  = Some f)
      by (destruct K as [<- _]; exact Hf).
    rewrite (handleSubmit_accepted (P := P2) server _ Hf') by congruence.
    rewrite <- (sameInputs_formData f K), cleared_settled. cbn [fst snd].
    destruct (settled_platforms P1 P2 (server (formData s f)) (cleared s) HX HJ)
      as [H1 _].
    destruct (settled_platforms P1 P2 (server (formData s f)) s HX HJ)
      as [_ H2].
    split; [reflexivity|]. split; [exact H1|]. intros _. exact H2.
Qed.

End Resubmission.

(* ================================================================== *)
(** * Failed requests and the preview table *)
(* ================================================================== *)

Section FailuresAndPreview.

Context {Cell : Type} {P : Platform Cell}.

Implicit Types (s : AppState Cell) (server : Request -> AxiosOutcome).




(** X7.  The preview table accounts for every row of the sheet: its
    header and body are the first rows, at most 20 in all, and the count
    of its closing note is the number of rows left out; the note is
    absent exactly when no row is left out, and no table is drawn exactly
    when there is no row. *)
Theorem X7_preview_accounts_for_every_row s :
  match renderPreviewTable s with
  | None => previewData s = []
  | Some t =>
      headerCells t :: bodyRows t ++ skipn 20 (previewData s) = previewData s
      /\ length (bodyRows t) <= 19
      /\ 1 + length (bodyRows t) + moreCount t = length (previewData s)
      /\ (moreRows t = None <-> length (previewData s) <= 20)
  end.
Proof.
  unfold renderPreviewTable, moreCount.
  destruct (previewData s) as [|header rows]; [reflexivity|].
  cbn [length Nat.eqb]. unfold maxPreviewRows.
  rewrite (firstn_cons 19 header rows).
  cbn [nth skipn headerCells bodyRows moreRows].
  split; [now rewrite firstn_skipn|].
  pose proof (length_firstn 19 rows) as L.
  split; [lia|].
  destruct (20 <? S (length rows)) eqn:E.
  - apply Nat.ltb_lt in E. split; [lia|]. split; [discriminate | lia].
  - apply Nat.ltb_ge in E. split; [lia|]. split; [intros _; lia | reflexivity].
Qed.

(** X8.  After an extraction whose sheet has rows, the number of data rows
    announced in the completion panel is the number of body rows of the
    preview table plus the count of its closing note. *)
Theorem X8_announced_rows_match_preview server s s' req body workbook :
  handleSubmit server s = (s', Some req) ->
  server req = Resolved body ->
  XLSX_read body = Some workbook ->
  firstSheet workbook <> [] ->
  exists st t,
    completePanel (render s') = Some st
    /\ previewTable (render s') = Some t
    /\ totalRows st = Z.of_nat (length (bodyRows t) + moreCount t).
Proof.
  intros H Hr Hx Hne.
  apply handleSubmit_posted in H as [f [_ [_ [_ [_ ->]]]]].
  rewrite Hr, (settled_parsed s body Hx).
  set (s' := setExtractionStats _ _).
  assert (Hp : previewData s' = firstSheet workbook) by reflexivity.
  pose proof (computeStats_rows (firstSheet workbook)) as [R _].
  specialize (R Hne).
  assert (Hv := @refl_equal _ (renderPreviewTable s')).
  unfold renderPreviewTable at 2 in Hv. rewrite Hp in Hv.
  destruct (firstSheet workbook) as [|header rows] eqn:Hs; [congruence|].
  cbn [length Nat.eqb] in Hv. unfold maxPreviewRows in Hv.
  rewrite (firstn_cons 19 header rows) in Hv.
  cbn [nth skipn] in Hv.
  eexists. eexists. split; [reflexivity|]. split; [exact Hv|].
  rewrite R. unfold moreCount. cbn [bodyRows moreRows length].
  pose proof (length_firstn 19 rows) as L.
  destruct (20 <? S (length rows)) eqn:E.
  - apply Nat.ltb_lt in E. lia.
  - apply Nat.ltb_ge in E. lia.
Qed.

End FailuresAndPreview.

(* ================================================================== *)
(** * Where saved files come from *)
(* ================================================================== *)

Section SavedFiles.

Context {Cell : Type} {P : Platform Cell}.

Implicit Types (s : AppState Cell) (x : Session Cell).

Lemma Provenance_step x e :
  Consistent x -> Provenance x -> Provenance (step x e).
Proof.
  intros [_ [Hn Hr]] Hp.
  destruct e as [file|v|v|v|server| |]; cbn [step]; try exact Hp.
  - destruct (handleSubmit server (ui x)) as [s' [req|]]; [|exact Hp].
    intros d Hd. cbn [saved] in Hd.
    destruct (Hp d Hd) as [rq [body [Hin H]]].
    exists rq, body. split; [now right | exact H].
  - unfold clickDownload.
    destruct (completePanel (render (ui x))); [|exact Hp].
    unfold handleDownload.
    destruct (extractedBlob (ui x)) as [blob|] eqn:Hb; [|exact Hp].
    destruct (truthy (originalFilename (ui x))); [|exact Hp].
    destruct Hr as [req [body [rest [Ex [Hf Hb']]]]].
    { right; right. rewrite Hb. discriminate. }
    intros d [<-|Hd]; [|now apply Hp].
    exists req, body. cbn [exchanges href download].
    rewrite Ex. split; [now left|].
    split; [congruence|]. rewrite Hn, Hf. reflexivity.
Qed.

Lemma Provenance_run events x :
  Consistent x -> Provenance x -> Provenance (run events x).
Proof.
  revert x. induction events as [|e events IH]; intros x Hc Hp; [exact Hp|].
  apply IH; [now apply Consistent_step | now apply Provenance_step].
Qed.

(** X9.  In every session, each file the browser was made to save holds
    the bytes of a response that resolved, and is named after the file
    that response was requested for: nothing is saved that the back end
    did not send. *)
Theorem X9_saved_files_come_from_responses events :
  Provenance (run (Cell := Cell) events session0).
Proof.
  apply Provenance_run; [apply Consistent_session0|].
  intros d Hd. destruct Hd.
Qed.

End SavedFiles.

(* ================================================================== *)
(** * Column input, file names and limits as the user types them *)
(* ================================================================== *)

Section TypedInputs.

Context {Cell : Type} {P : Platform Cell}.

Implicit Types (s : AppState Cell) (server : Request -> AxiosOutcome).

Lemma split_nonempty sep (s : jsstring) : split sep s <> [].
Proof.
  destruct s as [|c r]; simpl; [discriminate|].
  destruct (Ascii.eqb c sep); [discriminate|].
  destruct (split sep r); discriminate.
Qed.

Lemma split_app sep a b :
  split sep (a ++ sep :: b) = split sep a ++ split sep b.
Proof.
  induction a as [|c a IH]; simpl.
  - now rewrite Ascii.eqb_refl.
  - destruct (Ascii.eqb c sep); [now rewrite IH|].
    rewrite IH. pose proof (split_nonempty sep a) as Hne.
    destruct (split sep a); [congruence | reflexivity].
Qed.

(** X10.  The column list of two inputs joined by a comma is the column
    list of the first followed by that of the second; so a comma at
    either end, or a doubled one, adds no column. *)
Theorem X10_columnList_of_joined_inputs (a b : jsstring) :
  columnList (a ++ ","%char :: b) = columnList a ++ columnList b
  /\ columnList (","%char :: b) = columnList b
  /\ columnList (a ++ [","%char]) = columnList a
  /\ columnList (a ++ str ",," ++ b) = columnList a ++ columnList b.
Proof.
  assert (H : forall u v,
             columnList (u ++ ","%char :: v) = columnList u ++ columnList v).
  { intros u v. unfold columnList. now rewrite split_app, map_app, filter_app. }
  split; [apply H|]. split; [apply (H [] b)|]. split.
  - rewrite (H a []). apply app_nil_r.
  - change (str ",," ++ b) with (","%char :: ([] ++ ","%char :: b)).
    now rewrite H, H.
Qed.

Lemma jsstring_eqb_refl (a : jsstring) : jsstring_eqb a a = true.
Proof. unfold jsstring_eqb. now destruct (list_eq_dec ascii_dec a a). Qed.

Lemma jsstring_eqb_eq (a b : jsstring) : jsstring_eqb a b = true <-> a = b.
Proof.
  unfold jsstring_eqb.
  destruct (list_eq_dec ascii_dec a b); split; congruence.
Qed.

(** [endsWith s p] holds exactly when [s] is some string followed by [p]. *)
Lemma endsWith_true_iff (s p : jsstring) :
  endsWith s p = true <-> exists pre, s = pre ++ p.
Proof.
  unfold endsWith. rewrite andb_true_iff, Nat.leb_le, jsstring_eqb_eq. split.
  - intros [_ H]. exists (firstn (length s - length p) s).
    transitivity (firstn (length s - length p) s
                  ++ skipn (length s - length p) s);
      [symmetry; apply firstn_skipn | now rewrite H].
  - intros [pre ->]. rewrite length_app. split; [lia|].
    replace (length pre + length p - length p) with (length pre) by lia.
    rewrite skipn_app, Nat.sub_diag, skipn_all. reflexivity.
Qed.

(** X11.  The file tests accept a name exactly when it ends with an
    extension that reads ".pdf" once lowercased, whatever the case of its
    letters and whatever comes before it. *)
Theorem X11_accepted_names (f : File) (s : AppState Cell) :
  pdfFile s = Some f ->
  (fileAccepted s
   <-> exists base ext,
         name f = base ++ ext /\ toLowerCase ext = str ".pdf").
Proof.
  intros Hf. unfold fileAccepted. split.
  - intros [f' [Hf' Hp]]. rewrite Hf in Hf'. injection Hf' as <-.
    apply endsWith_true_iff in Hp as [pre Hp].
    exists (firstn (length pre) (name f)), (skipn (length pre) (name f)).
    split; [symmetry; apply firstn_skipn|].
    unfold toLowerCase in *. rewrite <- skipn_map, Hp.
    rewrite skipn_app, Nat.sub_diag, skipn_all. reflexivity.
  - intros [base [ext [Hn He]]]. exists f. split; [exact Hf|].
    apply endsWith_true_iff. exists (toLowerCase base).
    unfold toLowerCase in *. now rewrite Hn, map_app, He.
Qed.

Lemma replace_undotted base rep :
  forallb (fun c => negb (Ascii.eqb c "."%char)) base = true ->
  replace (str ".pdf") rep (base ++ str ".pdf") = base ++ rep.
Proof.
  induction base as [|c base IH]; intros H.
  - rewrite replace_eq. simpl. apply app_nil_r.
  - cbn [forallb] in H. apply andb_true_iff in H as [Hc H].
    rewrite replace_eq. cbn [app].
    assert (E : startsWith (c :: base ++ str ".pdf") (str ".pdf") = false).
    { cbn [str list_ascii_of_string startsWith].
      rewrite Ascii.eqb_sym. apply negb_true_iff in Hc. now rewrite Hc. }
    rewrite E. f_equal. now apply IH.
Qed.

(** X12.  For a file named with a single dot, the one before a lower-case
    "pdf", the saved file is named "extracted_" followed by the same base
    with ".xlsx", and that name ends with ".xlsx". *)
Theorem X12_download_name_of_plain_pdf s base body :
  originalFilename s = base ++ str ".pdf" ->
  extractedBlob s = Some body ->
  forallb (fun c => negb (Ascii.eqb c "."%char)) base = true ->
  handleDownload s
  = Some {| download := str "extracted_" ++ base ++ str ".xlsx";
            href := body |}
  /\ endsWith (str "extracted_" ++ base ++ str ".xlsx") (str ".xlsx") = true.
Proof.
  intros Hn Hb Hd. split.
  - unfold handleDownload. rewrite Hb, Hn, (replace_undotted base (str ".xlsx") Hd).
    now destruct base.
  - apply endsWith_true_iff. exists (str "extracted_" ++ base).
    now rewrite <- app_assoc.
Qed.

End TypedInputs.

(* ================================================================== *)
(** * Limits written in decimal digits *)
(* ================================================================== *)

Section DecimalLimits.

Context {Cell : Type} {P : Platform Cell}.

Lemma isDigit_radix10 c : isDigit c = true -> isRadixDigit 10 c = true.
Proof.
  unfold isDigit, isRadixDigit, digitValue. intros H. rewrite H.
  apply andb_true_iff in H as [H1 H2]. apply Z.leb_le in H1, H2.
  apply Z.ltb_lt. lia.
Qed.

Lemma isDigit_not_whiteSpace c : isDigit c = true -> isWhiteSpace c = false.
Proof.
  unfold isDigit, isWhiteSpace. set (n := unit_code c).
  intros H. apply andb_true_iff in H as [H1 H2]. apply Z.leb_le in H1, H2.
  destruct (Z.leb_spec 9 n), (Z.leb_spec n 13), (Z.eqb_spec n 32),
    (Z.eqb_spec n 160); simpl; try reflexivity; lia.
Qed.

Lemma takeWhile_all p (l : jsstring) : forallb p l = true -> takeWhile p l = l.
Proof.
  induction l as [|c l IH]; simpl; [reflexivity|].
  destruct (p c); simpl; [|discriminate]. intros H; now rewrite IH.
Qed.

Lemma stripSign_digits (l : jsstring) : forallb isDigit l = true -> stripSign l = l.
Proof.
  destruct l as [|c r]; [reflexivity|]. intros H.
  destruct c as [[] [] [] [] [] [] [] []]; try reflexivity;
    cbn in H; discriminate.
Qed.

Lemma sign_digits (l : jsstring) :
  forallb isDigit l = true ->
  match l with
  | "-"%char :: _ => (-1)%Z
  | _ => 1%Z
  end = 1%Z.
Proof.
  destruct l as [|c r]; [reflexivity|]. intros H.
  destruct c as [[] [] [] [] [] [] [] []]; try reflexivity;
    cbn in H; discriminate.
Qed.

Lemma prefix_digits (l : jsstring) :
  forallb isDigit l = true ->
  match l with
  | "0"%char :: "x"%char :: r => (16%Z, r)
  | "0"%char :: "X"%char :: r => (16%Z, r)
  | _ => (10%Z, l)
  end = (10%Z, l).
Proof.
  destruct l as [|c r]; [reflexivity|]. intros H.
  destruct c as [[] [] [] [] [] [] [] []]; try reflexivity.
  destruct r as [|c r]; [reflexivity|].
  destruct c as [[] [] [] [] [] [] [] []]; try reflexivity;
    cbn in H; discriminate.
Qed.

Lemma parseInt_digits (l : jsstring) :
  l <> [] -> forallb isDigit l = true ->
  parseInt l = Some (digitsValue 10 l).
Proof.
  intros Hne H. unfold parseInt.
  assert (T : trimStart l = l).
  { unfold trimStart. destruct l as [|c r]; [reflexivity|].
    apply dropWhile_stable. apply isDigit_not_whiteSpace.
    simpl in H. now apply andb_true_iff in H as [H _]. }
  rewrite T. cbv zeta.
  change (match l with
          | "+"%char :: r => r
          | "-"%char :: r => r
          | _ => l
          end) with (stripSign l).
  rewrite (stripSign_digits _ H), (sign_digits _ H), (prefix_digits _ H).
  rewrite takeWhile_all.
  - destruct l; [congruence|]. f_equal. apply Z.mul_1_l.
  - rewrite forallb_forall in *. intros c Hc. apply isDigit_radix10. auto.
Qed.

Lemma isNaN_digits (l : jsstring) :
  l <> [] -> forallb isDigit l = true -> isNaN l = false.
Proof.
  intros Hne H. unfold isNaN, isStringNumericLiteral.
  assert (T : trim l = l).
  { unfold trim, trimStart, trimEnd.
    assert (D : forall m : jsstring, forallb isDigit m = true ->
                  dropWhile isWhiteSpace m = m).
    { intros [|c r] Hm; [reflexivity|]. apply dropWhile_stable.
      apply isDigit_not_whiteSpace. simpl in Hm.
      now apply andb_true_iff in Hm as [Hm _]. }
    rewrite (D l H), D; [apply rev_involutive | now apply forallb_rev_true]. }
  rewrite T. destruct l as [|c r] eqn:El; [congruence|]. rewrite <- El in *.
  rewrite (stripSign_digits _ H). unfold isStrUnsignedDecimalLiteral.
  destruct (jsstring_eqb l (str "Infinity")); [now rewrite orb_true_r|].
  rewrite (takeWhile_all _ _ H).
  assert (E : dropWhile isDigit l = []) by now apply dropWhile_nil_iff.
  rewrite E. cbn [isExponentPartOpt]. rewrite El. cbn [truthy andb negb].
  now rewrite orb_true_r.
Qed.

Lemma digitValue_nonneg c v : digitValue c = Some v -> (0 <= v)%Z.
Proof.
  unfold digitValue. set (n := unit_code c).
  destruct (Z.leb_spec 48 n), (Z.leb_spec n 57); cbn [andb];
    try (intros E; injection E as <-; lia);
    destruct (Z.leb_spec 97 n), (Z.leb_spec n 122); cbn [andb];
    try (intros E; injection E as <-; lia);
    destruct (Z.leb_spec 65 n), (Z.leb_spec n 90); cbn [andb];
    try (intros E; injection E as <-; lia); discriminate.
Qed.

Lemma digitsValue_nonneg (l : jsstring) : (0 <= digitsValue 10 l)%Z.
Proof.
  unfold digitsValue.
  assert (G : forall acc, (0 <= acc)%Z ->
            (0 <= fold_left
                    (fun a c => (a * 10
                                 + match digitValue c with
                                   | Some v => v
                                   | None => 0
                                   end)%Z) l acc)%Z).
  { induction l as [|c l IH]; intros acc Ha; [exact Ha|].
    cbn [fold_left]. apply IH.
    destruct (digitValue c) as [v|] eqn:E; [|lia].
    apply digitValue_nonneg in E. lia. }
  apply G. lia.
Qed.

Lemma digit_zero_code c : unit_code c = 48%Z -> c = "0"%char.
Proof.
  unfold unit_code. intros H.
  assert (E : nat_of_ascii c = 48) by lia.
  rewrite <- (ascii_nat_embedding c), E. reflexivity.
Qed.

Lemma digitValue_positive c :
  isDigit c = true -> c <> "0"%char ->
  exists v, digitValue c = Some v /\ (0 < v)%Z.
Proof.
  unfold isDigit, digitValue. intros H Hc. rewrite H.
  apply andb_true_iff in H as [H1 H2]. apply Z.leb_le in H1, H2.
  eexists; split; [reflexivity|].
  assert (unit_code c <> 48%Z) by (intros E; now apply digit_zero_code in E).
  lia.
Qed.

Lemma fold_digits_ge (l : jsstring) acc :
  (0 <= acc)%Z ->
  (acc <= fold_left
            (fun a c => (a * 10
                         + match digitValue c with
                           | Some v => v
                           | None => 0
                           end)%Z) l acc)%Z.
Proof.
  revert acc. induction l as [|c l IH]; intros acc Ha; cbn [fold_left]; [lia|].
  assert (Hv : (0 <= match digitValue c with Some v => v | None => 0 end)%Z).
  { destruct (digitValue c) as [v|] eqn:E; [|lia].
    now apply digitValue_nonneg in E. }
  etransitivity; [|apply IH]; lia.
Qed.

(** A run of decimal digits with a digit other than 0 has a positive
    value; a run of zeros has the value 0. *)
Lemma digitsValue_positive (l : jsstring) :
  forallb isDigit l = true ->
  (exists c, In c l /\ c <> "0"%char) ->
  (0 < digitsValue 10 l)%Z.
Proof.
  unfold digitsValue.
  assert (G : forall acc, (0 <= acc)%Z ->
            forallb isDigit l = true ->
            (exists c, In c l /\ c <> "0"%char) ->
            (0 < fold_left
                   (fun a c => (a * 10
                                + match digitValue c with
                                  | Some v => v
                                  | None => 0
                                  end)%Z) l acc)%Z).
  { induction l as [|c l IH]; intros acc Ha Hd [d [Hin Hne]];
      [contradiction|].
    cbn [forallb] in Hd. apply andb_true_iff in Hd as [Hc Hd].
    cbn [fold_left].
    destruct (ascii_dec c "0"%char) as [E|E].
    - apply IH;
        [subst c; change (digitValue "0"%char) with (Some 0%Z); lia
        | exact Hd |].
      destruct Hin as [<-|Hin]; [contradiction | now exists d].
    - destruct (digitValue_positive Hc E) as [v [Ev Hv]]. rewrite Ev.
      eapply Z.lt_le_trans; [|apply fold_digits_ge]; lia. }
  intros Hd Hex. apply G; [lia | exact Hd | exact Hex].
Qed.

Lemma digitsValue_zeros (l : jsstring) :
  forallb (Ascii.eqb "0"%char) l = true -> digitsValue 10 l = 0%Z.
Proof.
  unfold digitsValue.
  induction l as [|c l IH]; [reflexivity|].
  cbn [forallb fold_left]. intros H. apply andb_true_iff in H as [Hc H].
  apply Ascii.eqb_eq in Hc. subst c.
  change (digitValue "0"%char) with (Some 0%Z). cbn [Z.mul Z.add].
  now apply IH.
Qed.

(** X13.  With an accepted file and some column, a non-empty limit of
    decimal digits only is taken for a number; when one of its digits is
    not 0 the request is posted with what [parseInt] reads from it, a
    positive value, as its limit; when all its digits are 0 validation
    stops with the sample-pages message and nothing is posted. *)
Theorem X13_decimal_limit server (s : AppState Cell) :
  samplePages s <> [] ->
  forallb isDigit (samplePages s) = true ->
  fileAccepted s ->
  columnList (columns s) <> [] ->
  isNaN (samplePages s) = false
  /\ ((exists c, In c (samplePages s) /\ c <> "0"%char) ->
      exists req z,
        snd (handleSubmit server s) = Some req
        /\ parseInt (samplePages s) = Some z
        /\ (0 < z)%Z
        /\ req_sample_pages req = Some z)
  /\ (forallb (Ascii.eqb "0"%char) (samplePages s) = true ->
      snd (handleSubmit server s) = None
      /\ error (fst (handleSubmit server s))
         = str "Sample pages must be a positive number").
Proof.
  intros Hne Hd Ha Hc.
  pose proof (isNaN_digits Hne Hd) as Hn.
  pose proof (parseInt_digits Hne Hd) as Hp.
  set (v := digitsValue 10 (samplePages s)) in *.
  split; [exact Hn|]. split.
  - intros Hex. pose proof (digitsValue_positive _ Hd Hex) as Hv. fold v in Hv.
    assert (Hs : truthy (samplePages s)
                 && (isNaN (samplePages s) || parseInt_le0 (samplePages s))
                 = false).
    { rewrite Hn. unfold parseInt_le0. rewrite Hp.
      assert (E : (v <=? 0)%Z = false) by (apply Z.leb_gt; lia).
      rewrite E. apply andb_false_r. }
    pose proof (validateInputs_passes Ha Hc Hs) as Hval.
    destruct Ha as [f [Hf _]].
    rewrite (handleSubmit_accepted server s Hf Hval). cbn [snd].
    eexists. exists v. split; [reflexivity|]. split; [exact Hp|].
    split; [exact Hv|]. cbn [formData req_sample_pages].
    apply truthy_true_iff in Hne. rewrite Hne, Hn. unfold parseInt_gt0.
    rewrite Hp. apply Z.ltb_lt in Hv. now rewrite Hv.
  - intros Hz. pose proof (digitsValue_zeros _ Hz) as Hv. fold v in Hv.
    assert (Hs : truthy (samplePages s)
                 && (isNaN (samplePages s) || parseInt_le0 (samplePages s))
                 = true).
    { apply truthy_true_iff in Hne. rewrite Hne. unfold parseInt_le0.
      rewrite Hp, Hv. cbn. apply orb_true_r. }
    destruct Ha as [f [Hf Hpdf]].
    pose proof (validateInputs_spec s) as V.
    destruct (fst (validateInputs s)) eqn:Hval.
    + apply Validation_true in V as [_ [_ [_ [_ [_ Hs']]]]]. congruence.
    + rewrite (handleSubmit_rejected server s Hval). cbn [fst snd].
      split; [reflexivity|].
      inversion V as [Hf' E|f' Hf' Hp' E|f' Hf' Hp' Ht E|f' Hf' Hp' Ht Hc' E
                     |f' Hf' Hp' Hc' Hne' Hs' E|]; try reflexivity;
        try congruence.
      exfalso. apply Hc. now apply columnList_blank.
Qed.

End DecimalLimits.

(* ================================================================== *)
(** * The result cells agree in every session *)
(* ================================================================== *)

Section Coherence.

Context {Cell : Type} {P : Platform Cell}.

Implicit Types (s : AppState Cell) (x : Session Cell).

Lemma Coherent_empty s :
  extractionStats s = None -> previewData s = [] ->
  extractedBlob s = None -> downloadLink s = [] -> Coherent s.
Proof.
  intros H1 H2 H3 H4. unfold Coherent. rewrite H1, H2, H3, H4.
  repeat split; intros; discriminate.
Qed.

Lemma Coherent_settled o s : Coherent (settled o (cleared s)).
Proof.
  destruct o as [body|r| |m]; try (now apply Coherent_empty).
  destruct (XLSX_read body) as [workbook|] eqn:Hx.
  - rewrite (settled_parsed s body Hx). unfold Coherent.
    cbn [extractionStats previewData extractedBlob downloadLink
         setExtractionStats setPreviewData setIsLoading setDownloadLink
         setExtractedBlob].
    split; [|split; [discriminate|split; [|discriminate]]].
    + intros st E. injection E as <-. now exists body, workbook.
    + intros b E. now injection E as <-.
  - rewrite (settled_unparsed s body Hx). unfold Coherent.
    cbn [extractionStats previewData extractedBlob downloadLink setError
         setIsLoading setDownloadLink setExtractedBlob cleared
         setExtractionStats setPreviewData].
    split; [discriminate|]. split; [reflexivity|].
    split; [|discriminate]. intros b E. now injection E as <-.
Qed.

Lemma Coherent_step x e : Coherent (ui x) -> Coherent (ui (step x e)).
Proof.
  intros H.
  destruct e as [file|v|v|v|server| |]; cbn [step ui]; try exact H.
  - now apply Coherent_empty.
  - destruct (handleSubmit_cases server (ui x))
      as [[Hv E]|[f [Hf [Hv [_ E]]]]]; rewrite E; cbn [ui].
    + pose proof (validateInputs_spec (ui x)) as V. rewrite Hv in V.
      apply Validation_false in V as [e [-> _]]. exact H.
    + apply Coherent_settled.
  - destruct (completePanel (render (ui x))); [|exact H].
    now apply Coherent_empty.
Qed.

(** X14.  In every session the result cells agree: whenever statistics
    are set they are those of the first sheet read from the stored bytes,
    and the preview rows are that sheet's rows; the download link is the
    object URL of the stored bytes; without stored bytes there is no
    link and no statistics, and without statistics no preview row. *)
Theorem X14_result_cells_agree events :
  Coherent (ui (run (Cell := Cell) events session0)).
Proof.
  assert (G : forall x, Coherent (ui x) -> Coherent (ui (run events x))).
  { induction events as [|e events IH]; intros x Hx; [exact Hx|].
    apply IH. now apply Coherent_step. }
  apply G. now apply Coherent_empty.
Qed.

Lemma trim_frame (e : jsstring) :
  exists pre suf,
    e = pre ++ trim e ++ suf
    /\ forallb isWhiteSpace pre = true
    /\ forallb isWhiteSpace suf = true.
Proof.
  unfold trim, trimStart.
  destruct (dropWhile_split isWhiteSpace e) as [pre [E1 A1]].
  destruct (trimEnd_split (dropWhile isWhiteSpace e)) as [suf [E2 A2]].
  exists pre, suf. split; [|split; assumption].
  now rewrite <- E2.
Qed.

Lemma trim_ends (e : jsstring) :
  (forall c r, trim e = c :: r -> isWhiteSpace c = false)
  /\ (forall c r, rev (trim e) = c :: r -> isWhiteSpace c = false).
Proof.
  split.
  - intros c r H. unfold trim, trimStart in H.
    destruct (trimEnd_split (dropWhile isWhiteSpace e)) as [suf [E _]].
    rewrite H in E. simpl in E. eapply dropWhile_head; exact E.
  - intros c r H. unfold trim, trimEnd in H. rewrite rev_involutive in H.
    now apply dropWhile_head in H.
Qed.

(** X15.  Every column name that is posted is an entry of the column
    input with white space removed at its two ends and nowhere else: it
    neither starts nor ends with white space. *)
Theorem X15_posted_names_are_trimmed_entries server s s' req c :
  handleSubmit server s = (s', Some req) ->
  In c (req_columns req) ->
  (exists entry pre suf,
     In entry (split ","%char (columns s))
     /\ entry = pre ++ c ++ suf
     /\ forallb isWhiteSpace pre = true
     /\ forallb isWhiteSpace suf = true)
  /\ (forall c0 r, c = c0 :: r -> isWhiteSpace c0 = false)
  /\ (forall c0 r, rev c = c0 :: r -> isWhiteSpace c0 = false).
Proof.
  intros H Hc.
  apply handleSubmit_posted in H as [f [_ [_ [_ [-> _]]]]].
  cbn [formData req_columns] in Hc. unfold columnList in Hc.
  apply filter_In in Hc as [Hc _]. apply in_map_iff in Hc as [e [<- He]].
  split; [|apply trim_ends].
  destruct (trim_frame e) as [pre [suf [E [A1 A2]]]].
  now exists e, pre, suf.
Qed.

End Coherence.

(* ================================================================== *)
(** * The further theorems on concrete inputs *)
(* ================================================================== *)

(** The limit "3" is posted as 3. *)
Lemma X2_witness :
  let s := setSamplePages (str "3") readyState in
  snd (handleSubmit (P := demoPlatform) (answering threeByTwo) s)
  = Some (formData s surveyPdf)
  /\ req_sample_pages (formData s surveyPdf) = Some 3%Z
  /\ (0 < 3)%Z
  /\ isNaN (samplePages s) = false.
Proof.
  destruct (@X2_posted_limit_positive jsstring demoPlatform
              (answering threeByTwo) (setSamplePages (str "3") readyState)
              (formData (setSamplePages (str "3") readyState) surveyPdf)
              eq_refl) as [H _].
  destruct (H 3%Z eq_refl) as [H1 [_ H3]].
  split; [reflexivity|]. split; [reflexivity|]. split; [exact H1 | exact H3].
Defined.

(** [resultState] holds a result and [readyState] none; with the same
    inputs both post the same request. *)
Lemma X3_witness :
  sameInputs resultState readyState
  /\ snd (handleSubmit (P := demoPlatform) (answering threeByTwo) resultState)
     = snd (handleSubmit (P := demoPlatform) (answering threeByTwo) readyState).
Proof.
  assert (K : sameInputs resultState readyState) by (repeat split).
  split; [exact K|].
  exact (proj1 (@X3_submission_depends_on_inputs_only jsstring demoPlatform
                  (answering threeByTwo) resultState readyState K)).
Defined.

(** The second submission runs with libraries that mint another URL. *)
Lemma X4_witness :
  let first :=
    handleSubmit (P := demoPlatform) (answering threeByTwo) readyState in
  let second :=
    handleSubmit (P := demoPlatformLater) (answering threeByTwo) (fst first) in
  snd second = snd first
  /\ sameButLink (fst second) (fst first)
  /\ downloadLink (fst first) = str "blob:demo"
  /\ downloadLink (fst second) = str "blob:demo-later".
Proof.
  destruct (@X4_resubmission_idempotent jsstring demoPlatform demoPlatformLater
              (answering threeByTwo) readyState
              (fun _ => eq_refl) (fun _ => eq_refl))
    as [H1 [H2 H3]].
  split; [exact H1|]. split; [exact H2|]. split; [reflexivity|].
  apply (H3 ltac:(discriminate) threeByTwo). reflexivity.
Defined.


Lemma X8_witness :
  exists st t,
    completePanel (render resultState) = Some st
    /\ previewTable (render resultState) = Some t
    /\ totalRows st = Z.of_nat (length (bodyRows t) + moreCount t).
Proof.
  apply (@X8_announced_rows_match_preview jsstring demoPlatform
           (answering threeByTwo) readyState resultState
           (formData readyState surveyPdf) threeByTwo
           [map (fun x => repeat (str "cell") (Byte.to_nat x)) threeByTwo]
           eq_refl eq_refl eq_refl).
  discriminate.
Defined.

(** "SURVEY.PDF" is "SURVEY" followed by ".PDF". *)
Lemma X11_witness :
  fileAccepted (handleFileChange (Some upperPdf) readyState).
Proof.
  apply (proj2 (@X11_accepted_names jsstring upperPdf
                  (handleFileChange (Some upperPdf) readyState) eq_refl)).
  exists (str "SURVEY"), (str ".PDF"). split; reflexivity.
Defined.

Lemma X12_witness :
  handleDownload resultState
  = Some {| download := str "extracted_survey.xlsx"; href := threeByTwo |}.
Proof.
  exact (proj1 (@X12_download_name_of_plain_pdf jsstring resultState
                  (str "survey") threeByTwo eq_refl eq_refl eq_refl)).
Defined.

(** The limit "12" is posted with the positive value read from it. *)
Lemma X13_witness :
  exists req z,
    snd (handleSubmit (P := demoPlatform) (answering threeByTwo)
           (setSamplePages (str "12") readyState)) = Some req
    /\ parseInt (str "12") = Some z
    /\ (0 < z)%Z
    /\ req_sample_pages req = Some z.
Proof.
  assert (A : fileAccepted (setSamplePages (str "12") readyState))
    by (exists surveyPdf; split; reflexivity).
  assert (C : columnList (columns (setSamplePages (str "12") readyState)) <> [])
    by discriminate.
  assert (N : samplePages (setSamplePages (str "12") readyState) <> [])
    by discriminate.
  destruct (@X13_decimal_limit jsstring demoPlatform (answering threeByTwo)
              (setSamplePages (str "12") readyState) N eq_refl A C)
    as [_ [H _]].
  apply H. exists "1"%char. split; [now left | discriminate].
Defined.

(** " Location" is sent as "Location". *)
Lemma X15_witness :
  exists entry pre suf,
    In entry (split ","%char (columns repeatedColumns))
    /\ entry = pre ++ str "Location" ++ suf
    /\ forallb isWhiteSpace pre = true
    /\ forallb isWhiteSpace suf = true.
Proof.
  refine (proj1 (@X15_posted_names_are_trimmed_entries jsstring demoPlatform
                   (answering threeByTwo) repeatedColumns
                   (fst (handleSubmit (P := demoPlatform)
                           (answering threeByTwo) repeatedColumns))
                   (formData repeatedColumns surveyPdf) (str "Location")
                   eq_refl _)).
  right; left; reflexivity.
Defined.
